(** * CRM-UI: the ticket-status donut chart and the company page permission check

    A shallow embedding of the computational parts of

    - [src/pages/Dashboard/DashboardHome.tsx]  (module [DashboardHome]),
    - the second dashboard file of the repository, which carries an earlier
      copy of the same chart without the hover tooltip
      (module [DashboardVariant]),
    - the company list page (module [ShowCompanyPage]),
    - [src/pages/User/ShowUserPage.tsx]  (module [ShowUserPage]).

    Conventions of the embedding.

    - A JavaScript object used as a dictionary ([Record<string, number>]) is
      a [gmap string Z]: ticket counts are integers (possibly negative, the
      type does not exclude it), keys are arbitrary strings.  Reading a
      missing key gives [undefined] in the source and [None] here.
    - Numbers that the source obtains by division and by multiplying with
      [Math.PI] are IEEE doubles in the browser.  They are modelled by exact
      rationals ([Q], compared with [==]); rounding is not modelled, so an
      equation proved here is the one the source satisfies "within
      floating-point tolerance".  [Math.PI] is the rational value of the
      double the engine uses.
    - JSX is modelled by records that keep the attributes the source
      computes (key, stroke, dash array, dash offset) and the event handlers
      as first-order closures.
    - Calls to collaborators outside the component (the router's
      [navigate], the [onNavigateToTickets] prop, [toast], [axios]) are
      recorded in a trace of calls, in the order the source performs them. *)

From Stdlib Require Import QArith Qminmax Lqa.
From stdpp Require Import gmap strings list fin_maps pretty.

Open Scope Z_scope.

(** ** JavaScript helpers *)

(** [Object.values(o)]: the values of the own properties of [o]. *)
Definition Object_values (o : gmap string Z) : list Z := (map_to_list o).*2.

(** [xs.reduce(f, init)]: a left fold. *)
Definition reduce {A B : Type} (f : B → A → B) (init : B) (xs : list A) : B :=
  foldl f init xs.

(** [o[k] > 0]: false when [o[k]] is [undefined]. *)
Definition gt0 (v : option Z) : bool :=
  match v with
  | Some n => 0 <? n
  | None => false
  end.

(** The numeric value of [o[k]] when the property is present.  Every use
    below is behind the filter [o[k] > 0], where the property is present
    (lemma [segments_count_present]). *)
Definition num (v : option Z) : Z := default 0 v.

(** [Math.PI], the double 3.141592653589793, as the rational it denotes. *)
Definition Math_PI : Q := 884279719003555 # 281474976710656.

(** [Math.max(a, b)]. *)
Definition Math_max (a b : Q) : Q := Qmax a b.

(** ** The rendered chart *)

(** One entry of the [segments] array. *)
Record Segment := mkSegment {
  status : string;
  count : Z;
  percentage : Q;
  color : string
}.

(** The closures the source attaches to a [<circle>]. *)
Inductive ClickHandler :=
| CallHandleCardClick (status : string).

Inductive MouseMoveHandler :=
| SetTooltipText (text : string).

Inductive MouseLeaveHandler :=
| ClearTooltip.

(** A rendered segment [<circle>]: the attributes that depend on the data.
    [strokeDasharray] is the template [`${dashArray} ${circumference}`],
    kept as its two numbers. *)
Record Circle := mkCircle {
  key : string;
  stroke : string;
  strokeDasharray : Q * Q;
  strokeDashoffset : Q;
  onClick : ClickHandler;
  onMouseMove : option MouseMoveHandler;
  onMouseLeave : option MouseLeaveHandler
}.

(** The arc length of a rendered segment: the dash of its dash array. *)
Definition arcLength (c : Circle) : Q := fst (strokeDasharray c).

(** The tooltip state of the chart and the box drawn for it. *)
Record Tooltip := mkTooltip {
  tooltip_x : Q;
  tooltip_y : Q;
  tooltip_text : string
}.

Record TooltipBox := mkTooltipBox {
  box_top : Q;
  box_left : Q;
  box_content : string
}.

(** What [DonutChart] returns: the placeholder of the empty state, or the
    chart with its segment circles, the total in the centre and the tooltip
    box when there is one. *)
Inductive Rendered :=
| EmptyState (icon : string) (message : string) (hint : string)
| Chart (circles : list Circle) (centerTotal : Z) (tooltipBox : option TooltipBox).

Definition circlesOf (r : Rendered) : list Circle :=
  match r with
  | EmptyState _ _ _ => []
  | Chart cs _ _ => cs
  end.

Definition isEmptyState (r : Rendered) : bool :=
  match r with
  | EmptyState _ _ _ => true
  | Chart _ _ _ => false
  end.

(** Calls that leave the dashboard component. *)
Inductive Call :=
| navigate (to : string)
| onNavigateToTickets (status : string).

(** [DashboardHomeProps]: the optional [onNavigateToTickets] callback is
    either supplied by the host or absent. *)
Record DashboardHomeProps := mkProps {
  hasOnNavigateToTickets : bool
}.

(** A pointer event with the bounding rectangle of its target. *)
Record MouseEvent := mkMouseEvent {
  clientX : Q;
  clientY : Q;
  rectLeft : Q;
  rectTop : Q
}.

(** ** [DashboardHome.tsx] *)

Module DashboardHome.

(** [handleCardClick]: navigate to the filtered ticket list, then notify
    the host when it supplied the callback. *)
Definition handleCardClick (props : DashboardHomeProps) (status : string)
  : list Call :=
  navigate ("/home/ticket/show?status=" +:+ status)
    :: (if hasOnNavigateToTickets props then [onNavigateToTickets status] else []).

Definition total (data : gmap string Z) : Z :=
  reduce (λ sum count, sum + count) 0 (Object_values data).

Definition colors : gmap string string :=
  {[ "OPEN" := "#3b82f6";
     "PENDING" := "#ef4444";
     "INPROGRESS" := "#f59e0b";
     "CLOSED" := "#6b7280";
     "COMPLETED" := "#10b981" ]}.

Definition statusOrder : list string :=
  ["OPEN"; "PENDING"; "INPROGRESS"; "CLOSED"; "COMPLETED"].

(** [statusOrder.filter(...).map(...)], for the [total] in scope. *)
Definition segments (data : gmap string Z) (total : Z) : list Segment :=
  (λ status,
     {| status := status;
        count := num (data !! status);
        percentage := ((inject_Z (num (data !! status)) / inject_Z total) * 100)%Q;
        color := default "" (colors !! status) |})
    <$> filter (λ status, gt0 (data !! status) = true) statusOrder.

Definition size : Q := 280.
Definition strokeWidth : Q := 35.
Definition radius : Q := ((size - strokeWidth) / 2)%Q.
Definition circumference : Q := (2 * Math_PI * radius)%Q.

Definition minVisiblePercentage : Q := (1 # 2)%Q.

(** The body of [segments.map((segment) => ...)] in the JSX.  The source
    keeps [accumulatedPercentage] in a variable that the callback updates;
    here it is threaded through the recursion. *)
Fixpoint renderSegments (accumulatedPercentage : Q) (segs : list Segment)
  : list Circle :=
  match segs with
  | [] => []
  | segment :: rest =>
      let displayPercentage := Math_max (percentage segment) minVisiblePercentage in
      let dashArray := ((displayPercentage / 100) * circumference)%Q in
      let dashOffset := (- accumulatedPercentage * circumference / 100)%Q in
      {| key := status segment;
         stroke := color segment;
         strokeDasharray := (dashArray, circumference);
         strokeDashoffset := dashOffset;
         onClick := CallHandleCardClick (status segment);
         onMouseMove :=
           Some (SetTooltipText
                   (status segment +:+ ": " +:+ pretty (count segment) +:+ " Tickets"));
         onMouseLeave := Some ClearTooltip |}
        :: renderSegments (accumulatedPercentage + percentage segment)%Q rest
  end.

(** The [DonutChart] component; [tooltip] is its [useState] cell. *)
Definition DonutChart (data : gmap string Z) (tooltip : option Tooltip) : Rendered :=
  let total := total data in
  if total =? 0 then
    EmptyState "Activity" "No tickets assigned yet"
               "Tickets will appear here once assigned"
  else
    Chart (renderSegments 0 (segments data total))
          total
          (match tooltip with
           | Some t => Some {| box_top := (tooltip_y t - 30)%Q;
                               box_left := tooltip_x t;
                               box_content := tooltip_text t |}
           | None => None
           end).

(** Running the handlers of a circle. *)
Definition click (props : DashboardHomeProps) (c : Circle) : list Call :=
  match onClick c with
  | CallHandleCardClick status => handleCardClick props status
  end.

Definition mouseMove (c : Circle) (e : MouseEvent) (tooltip : option Tooltip)
  : option Tooltip :=
  match onMouseMove c with
  | Some (SetTooltipText text) =>
      Some {| tooltip_x := (clientX e - rectLeft e)%Q;
              tooltip_y := (clientY e - rectTop e)%Q;
              tooltip_text := text |}
  | None => tooltip
  end.

Definition mouseLeave (c : Circle) (tooltip : option Tooltip) : option Tooltip :=
  match onMouseLeave c with
  | Some ClearTooltip => None
  | None => tooltip
  end.


(** *** The rest of the dashboard page *)

(** [getStatusIcon]: the icon component chosen by the [switch], by name. *)
Definition getStatusIcon (status : string) : string :=
  if String.eqb status "COMPLETED" then "CheckCircle"
  else if String.eqb status "CLOSED" then "XCircle"
  else if String.eqb status "INPROGRESS" then "PlayCircle"
  else if String.eqb status "PENDING" then "AlertCircle"
  else if String.eqb status "OPEN" then "Activity"
  else "Activity".

Definition getStatusColor (status : string) : string :=
  if String.eqb status "COMPLETED" then "from-green-500 to-emerald-600"
  else if String.eqb status "CLOSED" then "from-gray-500 to-gray-600"
  else if String.eqb status "INPROGRESS" then "from-amber-500 to-orange-600"
  else if String.eqb status "PENDING" then "from-red-500 to-red-600"
  else if String.eqb status "OPEN" then "from-blue-500 to-blue-600"
  else "from-gray-500 to-gray-600".

Definition getStatusLabel (status : string) : string :=
  if String.eqb status "COMPLETED" then "Completed"
  else if String.eqb status "CLOSED" then "Closed"
  else if String.eqb status "INPROGRESS" then "In Progress"
  else if String.eqb status "PENDING" then "Pending"
  else if String.eqb status "OPEN" then "Open"
  else status.

(** The [useState] cells of the page that its JSX reads. *)
Record PageState := mkPageState {
  ticketStatusData : gmap string Z;
  loading : bool
}.

(** The state the page mounts with. *)
Definition initialState : PageState :=
  {| ticketStatusData :=
       {[ "COMPLETED" := 0; "CLOSED" := 0; "INPROGRESS" := 0; "PENDING" := 0; "OPEN" := 0 ]};
     loading := false |}.

(** Calls of [fetchTicketStatusCounts] that leave the page. *)
Inductive FetchEffect :=
| axios_get (url : string)
| toast_error (message : string).

(** What the awaited GET yields: a body with [code], [message] and [data]
    (an object of counts, as the state cell is typed), or a rejection. *)
Inductive CountsResponse :=
| resolved (code : Z) (message : option string) (data : gmap string Z)
| rejected.

(** [m || fallback] on an optional string: the empty string is falsy. *)
Definition messageOr (m : option string) (fallback : string) : string :=
  match m with
  | Some s => if String.eqb s "" then fallback else s
  | None => fallback
  end.

(** [fetchTicketStatusCounts], run to completion against the response. *)
Definition fetchTicketStatusCounts (API_BASE : string) (res : CountsResponse)
    (st : PageState) : PageState * list FetchEffect :=
  let request := axios_get (API_BASE +:+ "/ticket/ticket-status-count") in
  match res with
  | resolved code message data =>
      if code =? 1 then
        ({| ticketStatusData := data; loading := false |}, [request])
      else
        ({| ticketStatusData := ticketStatusData st; loading := false |},
         [request;
          toast_error (messageOr message "Failed to fetch ticket status counts")])
  | rejected =>
      ({| ticketStatusData := ticketStatusData st; loading := false |},
       [request; toast_error "Error fetching ticket status counts"])
  end.

(** A status card.  [count] is [ticketStatusData[status]], [undefined] when
    the key is missing: JSX renders nothing for it and a template literal
    prints it as the word undefined. *)
Record Card := mkCard {
  card_key : string;
  card_icon : string;
  card_gradient : string;
  card_badge : string;
  card_title : string;
  card_text : string;
  card_onClick : ClickHandler
}.

Definition statusCard (st : PageState) (status : string) : Card :=
  let count := ticketStatusData st !! status in
  {| card_key := status;
     card_icon := getStatusIcon status;
     card_gradient := getStatusColor status;
     card_badge :=
       if loading st then "..."
       else match count with Some n => pretty n | None => "" end;
     card_title := getStatusLabel status;
     card_text :=
       if loading st then "Loading..."
       else match count with Some n => pretty n | None => "undefined" end
            +:+ " Tickets";
     card_onClick := CallHandleCardClick status |}.

(** The chart area: a placeholder while loading, the chart otherwise. *)
Inductive ChartArea :=
| LoadingChart (message : string)
| ChartShown (chart : Rendered).

Record PageView := mkPageView {
  cards : list Card;
  chartArea : ChartArea
}.

(** The JSX of the page.  The card grid maps over the page's own
    [statusOrder], the same five labels in the same order as the chart's;
    [tooltip] is the state cell of the chart. *)
Definition render (st : PageState) (tooltip : option Tooltip) : PageView :=
  {| cards := statusCard st <$> statusOrder;
     chartArea :=
       if loading st then LoadingChart "Loading ticket data..."
       else ChartShown (DonutChart (ticketStatusData st) tooltip) |}.

Definition clickCard (props : DashboardHomeProps) (card : Card) : list Call :=
  match card_onClick card with
  | CallHandleCardClick status => handleCardClick props status
  end.

End DashboardHome.

(** ** The second dashboard file: the chart without the tooltip *)

Module DashboardVariant.

Definition handleCardClick (props : DashboardHomeProps) (status : string)
  : list Call :=
  navigate ("/home/ticket/show?status=" +:+ status)
    :: (if hasOnNavigateToTickets props then [onNavigateToTickets status] else []).

Definition total (data : gmap string Z) : Z :=
  reduce (λ sum count, sum + count) 0 (Object_values data).

Definition colors : gmap string string :=
  {[ "OPEN" := "#3b82f6";
     "PENDING" := "#ef4444";
     "INPROGRESS" := "#f59e0b";
     "CLOSED" := "#6b7280";
     "COMPLETED" := "#10b981" ]}.

Definition statusOrder : list string :=
  ["OPEN"; "PENDING"; "INPROGRESS"; "CLOSED"; "COMPLETED"].

Definition segments (data : gmap string Z) (total : Z) : list Segment :=
  (λ status,
     {| status := status;
        count := num (data !! status);
        percentage := ((inject_Z (num (data !! status)) / inject_Z total) * 100)%Q;
        color := default "" (colors !! status) |})
    <$> filter (λ status, gt0 (data !! status) = true) statusOrder.

Definition size : Q := 280.
Definition strokeWidth : Q := 35.
Definition radius : Q := ((size - strokeWidth) / 2)%Q.
Definition circumference : Q := (2 * Math_PI * radius)%Q.

Definition minVisiblePercentage : Q := (1 # 2)%Q.

(** The same loop; the circles carry a click handler only. *)
Fixpoint renderSegments (accumulatedPercentage : Q) (segs : list Segment)
  : list Circle :=
  match segs with
  | [] => []
  | segment :: rest =>
      let displayPercentage := Math_max (percentage segment) minVisiblePercentage in
      let dashArray := ((displayPercentage / 100) * circumference)%Q in
      let dashOffset := (- accumulatedPercentage * circumference / 100)%Q in
      {| key := status segment;
         stroke := color segment;
         strokeDasharray := (dashArray, circumference);
         strokeDashoffset := dashOffset;
         onClick := CallHandleCardClick (status segment);
         onMouseMove := None;
         onMouseLeave := None |}
        :: renderSegments (accumulatedPercentage + percentage segment)%Q rest
  end.

Definition DonutChart (data : gmap string Z) : Rendered :=
  let total := total data in
  if total =? 0 then
    EmptyState "Activity" "No tickets assigned yet"
               "Tickets will appear here once assigned"
  else
    Chart (renderSegments 0 (segments data total)) total None.

End DashboardVariant.

(** ** The company list page *)

Module ShowCompanyPage.

Record Company := mkCompany {
  id : Z;
  name : string;
  email : string;
  phone : string;
  address : string;
  logo : string
}.

Record UserData := mkUserData {
  user_id : option Z;
  departmentId : Z;
  departmentName : option string;
  user_name : string;
  user_email : option string
}.

(** The [useState] cells of the page. *)
Record State := mkState {
  companies : list Company;
  loading : bool;
  search : string;
  selectedCompany : option Company;
  editModal : bool;
  deleteModal : bool;
  userData : option UserData
}.

(** Calls that leave the page. *)
Inductive Effect :=
| toast_error (message : string)
| toast_success (message : string)
| axios_get (url : string)
| axios_put (url : string) (body : Company)
| axios_delete (url : string).

(** What an awaited [axios] call yields: a response body with [code],
    [message] and [data], or a rejection that may carry a message. *)
Inductive Response :=
| resolved (code : Z) (message : option string) (data : option (list Company))
| rejected (message : option string).

(** [m || fallback] on an optional string: the empty string is falsy. *)
Definition orElse (m : option string) (fallback : string) : string :=
  match m with
  | Some s => if decide (s = "") then fallback else s
  | None => fallback
  end.

(** [hay.includes(needle)]. *)
Fixpoint includes (hay needle : string) : bool :=
  String.prefix needle hay
  || match hay with
     | EmptyString => false
     | String _ rest => includes rest needle
     end.

(** [userData?.departmentId === 1] *)
Definition isSuperAdmin (st : State) : bool :=
  match userData st with
  | Some u => departmentId u =? 1
  | None => false
  end.

Section WithEnvironment.

(** [API_BASE] is imported from [utils/api]; [toLowerCase] is the
    built-in of the string type. *)
Variable API_BASE : string.
Variable toLowerCase : string → string.

(** [fetchCompanies], run to completion against the response [res]. *)
Definition fetchCompanies (res : Response) (st : State) : State * list Effect :=
  let request := axios_get (API_BASE +:+ "/company/get-all") in
  match res with
  | resolved code message data =>
      if code =? 1 then
        (mkState (default [] data) false (search st) (selectedCompany st)
                 (editModal st) (deleteModal st) (userData st),
         [request])
      else
        (mkState (companies st) false (search st) (selectedCompany st)
                 (editModal st) (deleteModal st) (userData st),
         [request; toast_error (orElse message "Failed to fetch companies")])
  | rejected message =>
      (mkState (companies st) false (search st) (selectedCompany st)
               (editModal st) (deleteModal st) (userData st),
       [request; toast_error (orElse message "Failed to fetch companies")])
  end.

Definition filteredCompanies (st : State) : list Company :=
  filter (λ c, includes (toLowerCase (name c)) (toLowerCase (search st))
               || includes (toLowerCase (email c)) (toLowerCase (search st))
               || includes (phone c) (search st) = true)
         (companies st).

(** [handleUpdate]; [res] answers the PUT and [refetch] the
    [fetchCompanies] that a successful update starts. *)
Definition handleUpdate (res refetch : Response) (st : State) : State * list Effect :=
  match selectedCompany st with
  | None => (st, [])
  | Some selected =>
      if negb (isSuperAdmin st) then
        (st, [toast_error
                "You don't have permission to edit companies. Only SuperAdmin can edit."])
      else
        let request := axios_put (API_BASE +:+ "/company/update") selected in
        match res with
        | resolved code message _ =>
            if code =? 1 then
              let closed :=
                mkState (companies st) (loading st) (search st) (selectedCompany st)
                        false (deleteModal st) (userData st) in
              let '(st', calls) := fetchCompanies refetch closed in
              (st', request :: toast_success "Company updated successfully!" :: calls)
            else
              (st, [request; toast_error (orElse message "Failed to update company")])
        | rejected message =>
            (st, [request; toast_error (orElse message "Failed to update company")])
        end
  end.

(** [handleDelete]; the [finally] block closes the modal and clears the
    selection on every path that entered the [try]. *)
Definition handleDelete (res : Response) (st : State) : State * list Effect :=
  match selectedCompany st with
  | None => (st, [])
  | Some selected =>
      if negb (isSuperAdmin st) then
        (st, [toast_error
                "You don't have permission to delete companies. Only SuperAdmin can delete."])
      else
        let request :=
          axios_delete (API_BASE +:+ "/company/delete/" +:+ pretty (id selected)) in
        match res with
        | resolved code message _ =>
            if code =? 1 then
              (mkState (filter (λ c, id c ≠ id selected) (companies st))
                       (loading st) (search st) None (editModal st) false (userData st),
               [request; toast_success "Company deleted successfully!"])
            else
              (mkState (companies st) (loading st) (search st) None
                       (editModal st) false (userData st),
               [request; toast_error (orElse message "Failed to delete company")])
        | rejected message =>
            (mkState (companies st) (loading st) (search st) None
                     (editModal st) false (userData st),
             [request; toast_error (orElse message "Failed to delete company")])
        end
  end.

(** [handleRefresh]: [fetchCompanies()] is not awaited, so the success toast
    is shown as soon as the request is out, before the response is handled. *)
Definition handleRefresh (res : Response) (st : State) : State * list Effect :=
  let '(st', calls) := fetchCompanies res st in
  (st', take 1 calls ++ toast_success "Companies refreshed!" :: drop 1 calls).

(** [handleEditClick] and [handleDeleteClick]: the click handlers of the
    row buttons, with their permission check. *)
Definition handleEditClick (company : Company) (st : State) : State * list Effect :=
  if negb (isSuperAdmin st) then
    (st, [toast_error
            "You don't have permission to edit companies. Only SuperAdmin can edit."])
  else
    (mkState (companies st) (loading st) (search st) (Some company)
             true (deleteModal st) (userData st),
     []).

Definition handleDeleteClick (company : Company) (st : State) : State * list Effect :=
  if negb (isSuperAdmin st) then
    (st, [toast_error
            "You don't have permission to delete companies. Only SuperAdmin can delete."])
  else
    (mkState (companies st) (loading st) (search st) (Some company)
             (editModal st) true (userData st),
     []).

(** *** The rendered page *)

Inductive Button :=
| EditButton (company : Company)      (* onClick={() => handleEditClick(c)} *)
| DeleteButton (company : Company).   (* onClick={() => handleDeleteClick(c)} *)

Inductive LogoCell :=
| LogoImage (src : string)
| NoLogo.

Record Row := mkRow {
  row_key : Z;
  row_index : Z;
  row_name : string;
  row_email : string;
  row_phone : string;
  row_address : string;
  row_logo : LogoCell;
  row_actions : option (list Button)
}.

Inductive TableBody :=
| NoCompaniesFound (colSpan : Z)
| Rows (rows : list Row).

Inductive View :=
| LoadingSpinner
| Page (header : list string) (body : TableBody)
       (editDialog : option Company) (deleteDialog : option Company).

(** The [<thead>] row. *)
Definition tableHeader (st : State) : list string :=
  ["ID"; "Name"; "Email"; "Phone"; "Address"; "Logo"]
    ++ (if isSuperAdmin st then ["Actions"] else []).

Definition tableRow (st : State) (idx : nat) (c : Company) : Row :=
  {| row_key := id c;
     row_index := Z.of_nat idx + 1;
     row_name := name c;
     row_email := email c;
     row_phone := phone c;
     row_address := address c;
     row_logo := if decide (logo c = "") then NoLogo else LogoImage (logo c);
     row_actions :=
       if isSuperAdmin st then Some [EditButton c; DeleteButton c] else None |}.

(** The [<tbody>]. *)
Definition tableBody (st : State) : TableBody :=
  if Nat.eqb (length (filteredCompanies st)) 0 then
    NoCompaniesFound (if isSuperAdmin st then 7 else 6)
  else
    Rows (imap (tableRow st) (filteredCompanies st)).

Definition render (st : State) : View :=
  if loading st then LoadingSpinner
  else
    Page (tableHeader st) (tableBody st)
         (if editModal st then selectedCompany st else None)
         (if deleteModal st then selectedCompany st else None).

(** Pressing a row button runs its handler. *)
Definition press (b : Button) (st : State) : State * list Effect :=
  match b with
  | EditButton c => handleEditClick c st
  | DeleteButton c => handleDeleteClick c st
  end.


(** *** Finding out who the current user is *)

(** A JavaScript number that may be [NaN]. *)
Inductive JsNumber :=
| Num (n : Z)
| NaN.

(** The fields of the token payload that [getUserIdFromToken] reads;
    [None] is a missing property ([UserAuthDetails_id] is also [None] when
    [UserAuthDetails] itself is missing). *)
Record TokenPayload := mkTokenPayload {
  UserAuthDetails_id : option Z;
  payload_id : option Z;
  payload_userId : option Z;
  payload_sub : option string
}.

(** The built-ins the page relies on.  [decodePayload cleanToken] stands
    for [JSON.parse(atob(cleanToken.split('.')[1]))], [None] when that
    throws; [parseInt] is the global function; [JSON_parse] and
    [JSON_stringify] are the two functions at the type of the stored user
    record, [None] when parsing throws (the state cell is typed as a user
    record, so stored text that parses to anything else is outside the
    model). *)
Variable decodePayload : string → option TokenPayload.
Variable parseInt : string → JsNumber.
Variable JSON_parse : string → option UserData.
Variable JSON_stringify : UserData → string.

(** [s.replace(pattern, replacement)] with a string pattern: the first
    occurrence only. *)
Fixpoint replace (s pattern replacement : string) : string :=
  if String.prefix pattern s then
    replacement +:+ String.substring (String.length pattern)
                                      (String.length s - String.length pattern) s
  else
    match s with
    | EmptyString => EmptyString
    | String c rest => String c (replace rest pattern replacement)
    end.

(** Truthiness of an optional string, an optional number and a number. *)
Definition truthyString (v : option string) : bool :=
  match v with
  | Some s => negb (String.eqb s "")
  | None => false
  end.

Definition truthyId (v : option Z) : bool :=
  match v with
  | Some n => negb (n =? 0)
  | None => false
  end.

Definition truthyNumber (v : option JsNumber) : bool :=
  match v with
  | Some (Num n) => negb (n =? 0)
  | Some NaN => false
  | None => false
  end.

(** [getUserIdFromToken]; [None] is the [null] it returns. *)
Definition getUserIdFromToken (storage : gmap string string) : option JsNumber :=
  let token := storage !! "token" in
  if negb (truthyString token) then None
  else
    let cleanToken := replace (default "" token) "Bearer " "" in
    match decodePayload cleanToken with
    | None => None
    | Some payload =>
        if truthyId (UserAuthDetails_id payload) then
          Num <$> UserAuthDetails_id payload
        else if truthyId (payload_id payload) then
          Num <$> payload_id payload
        else if truthyId (payload_userId payload) then
          Num <$> payload_userId payload
        else if truthyString (payload_sub payload) then
          Some (parseInt (default "" (payload_sub payload)))
        else None
    end.

(** What the awaited [getById] yields. *)
Inductive UserResponse :=
| user_resolved (code : Z) (data : option UserData)
| user_rejected (message : option string).

Definition setUserData (u : UserData) (st : State) : State :=
  mkState (companies st) (loading st) (search st) (selectedCompany st)
          (editModal st) (deleteModal st) (Some u).

(** How a number prints in a template literal. *)
Definition printNumber (v : JsNumber) : string :=
  match v with
  | Num n => pretty n
  | NaN => "NaN"
  end.

(** [fetchUserData], on the page state and the session storage. *)
Definition fetchUserData (res : UserResponse) (st : State) (storage : gmap string string)
  : State * gmap string string * list Effect :=
  let token := storage !! "token" in
  if negb (truthyString token) then
    (st, storage, [toast_error "No authentication token found"])
  else
    let userId := getUserIdFromToken storage in
    if negb (truthyNumber userId) then
      (st, storage, [toast_error "Unable to get user ID from token"])
    else
      let request :=
        axios_get (API_BASE +:+ "/auth/getById/"
                   +:+ match userId with Some v => printNumber v | None => "" end) in
      match res with
      | user_resolved code data =>
          match (if code =? 1 then data else None) with
          | Some d =>
              let user :=
                {| user_id := user_id d;
                   departmentId := departmentId d;
                   departmentName := departmentName d;
                   user_name := user_name d;
                   user_email := user_email d |} in
              (setUserData user st,
               <["userData" := JSON_stringify user]> storage,
               [request])
          | None => (st, storage, [request; toast_error "Failed to fetch user data"])
          end
      | user_rejected message =>
          (st, storage, [request; toast_error (orElse message "Failed to fetch user data")])
      end.

(** [initializeUserData], the effect run when the page mounts. *)
Definition initializeUserData (res : UserResponse) (st : State)
    (storage : gmap string string) : State * gmap string string * list Effect :=
  let storedUserData := storage !! "userData" in
  if truthyString storedUserData then
    match JSON_parse (default "" storedUserData) with
    | Some parsedUserData => (setUserData parsedUserData st, storage, [])
    | None => fetchUserData res st (delete "userData" storage)
    end
  else fetchUserData res st storage.

(** *** The remaining handlers of the page *)

Definition setSearch (value : string) (st : State) : State :=
  mkState (companies st) (loading st) value (selectedCompany st)
          (editModal st) (deleteModal st) (userData st).

(** [() => setEditModal(false)] and [() => setDeleteModal(false)]: the close
    and cancel buttons of the two dialogs. *)
Definition closeEditModal (st : State) : State :=
  mkState (companies st) (loading st) (search st) (selectedCompany st)
          false (deleteModal st) (userData st).

Definition closeDeleteModal (st : State) : State :=
  mkState (companies st) (loading st) (search st) (selectedCompany st)
          (editModal st) false (userData st).

(** The [onChange] handlers of the edit dialog:
    [setSelectedCompany({ ...selectedCompany, field: value })].  The dialog,
    and so the handler, exists only while a company is selected. *)
Inductive Field :=
| NameField
| EmailField
| PhoneField
| AddressField.

Definition withField (f : Field) (value : string) (c : Company) : Company :=
  match f with
  | NameField => mkCompany (id c) value (email c) (phone c) (address c) (logo c)
  | EmailField => mkCompany (id c) (name c) value (phone c) (address c) (logo c)
  | PhoneField => mkCompany (id c) (name c) (email c) value (address c) (logo c)
  | AddressField => mkCompany (id c) (name c) (email c) (phone c) value (logo c)
  end.

Definition changeField (f : Field) (value : string) (st : State) : State :=
  match selectedCompany st with
  | Some c =>
      mkState (companies st) (loading st) (search st) (Some (withField f value c))
              (editModal st) (deleteModal st) (userData st)
  | None => st
  end.

(** Everything a user can do on the page, with the server's answers where
    a handler awaits one, and the page run through a sequence of them. *)
Inductive Event :=
| ClickEdit (c : Company)
| ClickDelete (c : Company)
| ClickUpdate (res refetch : Response)
| ClickConfirmDelete (res : Response)
| ClickRefresh (res : Response)
| TypeSearch (value : string)
| CloseEdit
| CloseDelete
| ChangeField (f : Field) (value : string).

Definition step (ev : Event) (st : State) : State * list Effect :=
  match ev with
  | ClickEdit c => handleEditClick c st
  | ClickDelete c => handleDeleteClick c st
  | ClickUpdate res refetch => handleUpdate res refetch st
  | ClickConfirmDelete res => handleDelete res st
  | ClickRefresh res => handleRefresh res st
  | TypeSearch value => (setSearch value st, [])
  | CloseEdit => (closeEditModal st, [])
  | CloseDelete => (closeDeleteModal st, [])
  | ChangeField f value => (changeField f value st, [])
  end.

Fixpoint run (evs : list Event) (st : State) : State * list Effect :=
  match evs with
  | [] => (st, [])
  | ev :: rest =>
      let '(st1, calls1) := step ev st in
      let '(st2, calls2) := run rest st1 in
      (st2, calls1 ++ calls2)
  end.

End WithEnvironment.

End ShowCompanyPage.

(** ** The user list page *)

Module ShowUserPage.

Record User := mkUser {
  id : Z;
  name : string;
  email : string;
  phone : string;
  departmentId : Z;
  departmentName : option string;
  roleId : option Z;
  roleName : option string;
  companyId : Z;
  companyName : option string
}.

(** The record of the current user ([UserData] in the source; its fields
    carry a prefix here because [User] has fields of the same names). *)
Record UserData := mkUserData {
  current_id : option Z;
  current_departmentId : Z;
  current_departmentName : option string;
  current_name : string;
  current_email : option string
}.

Record State := mkState {
  users : list User;
  loading : bool;
  search : string;
  selectedUser : option User;
  viewModal : bool;
  deleteModal : bool;
  userData : option UserData
}.

Inductive Effect :=
| toast_error (message : string)
| toast_success (message : string)
| axios_get (url : string)
| axios_delete (url : string).

(** What the three awaited calls yield. *)
Inductive ListResponse :=
| list_resolved (code : Z) (message : option string) (data : option (list User))
| list_rejected (message : option string).

Inductive DetailResponse :=
| detail_resolved (code : Z) (message : option string) (data : option User)
| detail_rejected (message : option string).

Inductive DeleteResponse :=
| delete_resolved (code : Z) (message : option string)
| delete_rejected (message : option string).

(** [userData?.departmentId === 1] *)
Definition isSuperAdmin (st : State) : bool :=
  match userData st with
  | Some u => current_departmentId u =? 1
  | None => false
  end.

(** [s.charAt(0)]: the first character as a string, empty for the empty
    string. *)
Definition charAt0 (s : string) : string :=
  match s with
  | EmptyString => EmptyString
  | String c _ => String c EmptyString
  end.

Section WithEnvironment.

Variable API_BASE : string.
Variable toLowerCase : string → string.
Variable toUpperCase : string → string.

(** [fetchUsers], run to completion against the response. *)
Definition fetchUsers (res : ListResponse) (st : State) : State * list Effect :=
  let request := axios_get (API_BASE +:+ "/auth/get-all") in
  match res with
  | list_resolved code message data =>
      if (code =? 1) || (code =? 200) then
        (mkState (default [] data) false (search st) (selectedUser st)
                 (viewModal st) (deleteModal st) (userData st),
         [request])
      else
        (mkState (users st) false (search st) (selectedUser st)
                 (viewModal st) (deleteModal st) (userData st),
         [request;
          toast_error (ShowCompanyPage.orElse message "Failed to fetch users")])
  | list_rejected message =>
      (mkState (users st) false (search st) (selectedUser st)
               (viewModal st) (deleteModal st) (userData st),
       [request; toast_error (ShowCompanyPage.orElse message "Failed to fetch users")])
  end.

(** [viewUser(id)] *)
Definition viewUser (userId : Z) (res : DetailResponse) (st : State)
  : State * list Effect :=
  let request := axios_get (API_BASE +:+ "/auth/getById/" +:+ pretty userId) in
  match res with
  | detail_resolved code message data =>
      if code =? 1 then
        (mkState (users st) (loading st) (search st) data true (deleteModal st)
                 (userData st),
         [request])
      else
        (st, [request;
              toast_error (ShowCompanyPage.orElse message "Failed to fetch user details")])
  | detail_rejected message =>
      (st, [request;
            toast_error (ShowCompanyPage.orElse message "Failed to fetch user details")])
  end.

(** [deleteUser] *)
Definition deleteUser (res : DeleteResponse) (st : State) : State * list Effect :=
  match selectedUser st with
  | None => (st, [])
  | Some selected =>
      let request :=
        axios_delete (API_BASE +:+ "/auth/deleteById/" +:+ pretty (id selected)) in
      match res with
      | delete_resolved code message =>
          if code =? 1 then
            (mkState (filter (λ u, id u ≠ id selected) (users st))
                     (loading st) (search st) None (viewModal st) false (userData st),
             [request; toast_success "User deleted successfully!"])
          else
            (st, [request;
                  toast_error (ShowCompanyPage.orElse message "Failed to delete user")])
      | delete_rejected message =>
          (st, [request;
                toast_error (ShowCompanyPage.orElse message "Failed to delete user")])
      end
  end.

(** The click handler of the delete button of a row:
    [() => { setSelectedUser(user); setDeleteModal(true); }]. *)
Definition askDelete (user : User) (st : State) : State :=
  mkState (users st) (loading st) (search st) (Some user) (viewModal st) true
          (userData st).

Definition closeViewModal (st : State) : State :=
  mkState (users st) (loading st) (search st) (selectedUser st) false (deleteModal st)
          (userData st).

Definition closeDeleteModal (st : State) : State :=
  mkState (users st) (loading st) (search st) (selectedUser st) (viewModal st) false
          (userData st).

Definition filteredUsers (st : State) : list User :=
  filter (λ u, ShowCompanyPage.includes (toLowerCase (name u)) (toLowerCase (search st))
               || ShowCompanyPage.includes (toLowerCase (email u)) (toLowerCase (search st))
               || ShowCompanyPage.includes (phone u) (search st) = true)
         (users st).

(** [user.companyName || `ID: ${user.companyId}`] and its two siblings. *)
Definition companyText (u : User) : string :=
  ShowCompanyPage.orElse (companyName u) ("ID: " +:+ pretty (companyId u)).

Definition departmentText (u : User) : string :=
  ShowCompanyPage.orElse (departmentName u) ("ID: " +:+ pretty (departmentId u)).

Definition roleText (u : User) : string :=
  ShowCompanyPage.orElse (roleName u) "N/A".

(** *** The rendered page *)

Inductive Button :=
| ViewButton (userId : Z)        (* onClick={() => viewUser(user.id)} *)
| DeleteButton (user : User).    (* onClick={() => { setSelectedUser(user); ... }} *)

Record Row := mkRow {
  row_key : Z;
  row_index : Z;
  row_initial : string;
  row_name : string;
  row_email : string;
  row_phone : string;
  row_company : option string;
  row_department : string;
  row_role : string;
  row_actions : list Button
}.

Inductive TableBody :=
| NoUsersFound (colSpan : Z)
| Rows (rows : list Row).

Record ViewDialog := mkViewDialog {
  dialog_title : string;
  dialog_email : string;
  dialog_phone : string;
  dialog_company : option string;
  dialog_department : string;
  dialog_role : string
}.

Inductive View :=
| LoadingSpinner
| Page (header : list string) (body : TableBody)
       (viewDialog : option ViewDialog) (deleteDialog : option string).

Definition tableHeader (st : State) : list string :=
  ["ID"; "Name"; "Email"; "Phone"]
    ++ (if isSuperAdmin st then ["Company"] else [])
    ++ ["Department"; "Role"; "Actions"].

Definition tableRow (st : State) (idx : nat) (user : User) : Row :=
  {| row_key := id user;
     row_index := Z.of_nat idx + 1;
     row_initial := toUpperCase (charAt0 (name user));
     row_name := name user;
     row_email := email user;
     row_phone := phone user;
     row_company := if isSuperAdmin st then Some (companyText user) else None;
     row_department := departmentText user;
     row_role := roleText user;
     row_actions := [ViewButton (id user); DeleteButton user] |}.

Definition tableBody (st : State) : TableBody :=
  if Nat.eqb (length (filteredUsers st)) 0 then
    NoUsersFound (if isSuperAdmin st then 8 else 7)
  else
    Rows (imap (tableRow st) (filteredUsers st)).

Definition viewDialogOf (st : State) (u : User) : ViewDialog :=
  {| dialog_title := name u;
     dialog_email := email u;
     dialog_phone := phone u;
     dialog_company := if isSuperAdmin st then Some (companyText u) else None;
     dialog_department := departmentText u;
     dialog_role := roleText u |}.

Definition render (st : State) : View :=
  if loading st then LoadingSpinner
  else
    Page (tableHeader st) (tableBody st)
         (if viewModal st then viewDialogOf st <$> selectedUser st else None)
         (if deleteModal st then name <$> selectedUser st else None).

End WithEnvironment.

End ShowUserPage.

(** ** Vocabulary of the specification *)

(** The sum of a list of rationals. *)
Definition sumQ (xs : list Q) : Q := foldr Qplus 0%Q xs.

(** The sum of a list of integers. *)
Definition sumZ (xs : list Z) : Z := foldr Z.add 0 xs.

(** The true percentage of a category: its count over the total, times
    100, with no floor applied. *)
Definition truePercentage (data : gmap string Z) (s : string) : Q :=
  (inject_Z (num (data !! s)) / inject_Z (DashboardHome.total data) * 100)%Q.

(** The categories that are rendered: those of the fixed order whose
    count is positive. *)
Definition renderedCategories (data : gmap string Z) : list string :=
  filter (λ status, gt0 (data !! status) = true) DashboardHome.statusOrder.

(** The entry that [segments] builds for a status, and the circle that the
    loop of [DonutChart] builds for an entry at an accumulated percentage. *)
Definition segmentOf (data : gmap string Z) (T : Z) (s : string) : Segment :=
  {| status := s;
     count := num (data !! s);
     percentage := ((inject_Z (num (data !! s)) / inject_Z T) * 100)%Q;
     color := default "" (DashboardHome.colors !! s) |}.

Definition circleAt (accumulatedPercentage : Q) (segment : Segment) : Circle :=
  {| key := status segment;
     stroke := color segment;
     strokeDasharray :=
       ((Math_max (percentage segment) DashboardHome.minVisiblePercentage / 100
         * DashboardHome.circumference)%Q,
        DashboardHome.circumference);
     strokeDashoffset :=
       (- accumulatedPercentage * DashboardHome.circumference / 100)%Q;
     onClick := CallHandleCardClick (status segment);
     onMouseMove :=
       Some (SetTooltipText
               (status segment +:+ ": " +:+ pretty (count segment) +:+ " Tickets"));
     onMouseLeave := Some ClearTooltip |}.

(** The geometry of a circle, and a circle without its hover handlers. *)
Definition geometry (c : Circle) : string * string * (Q * Q) * Q :=
  (key c, stroke c, strokeDasharray c, strokeDashoffset c).

Definition withoutHover (c : Circle) : Circle :=
  {| key := key c;
     stroke := stroke c;
     strokeDasharray := strokeDasharray c;
     strokeDashoffset := strokeDashoffset c;
     onClick := onClick c;
     onMouseMove := None;
     onMouseLeave := None |}.

Definition stripHover (r : Rendered) : Rendered :=
  match r with
  | EmptyState icon message hint => EmptyState icon message hint
  | Chart cs centerTotal _ => Chart (withoutHover <$> cs) centerTotal None
  end.

(** The sum of the counts of the rendered categories. *)
Definition renderedCount (data : gmap string Z) : Z :=
  sumZ ((λ s, num (data !! s)) <$> renderedCategories data).

(** A well-formed counts mapping: its keys are categories of the fixed
    order and its counts are not negative. *)
Definition wellFormed (data : gmap string Z) : Prop :=
  ∀ k v, data !! k = Some v → k ∈ DashboardHome.statusOrder ∧ 0 ≤ v.

(** Counts mappings used as examples. *)
Definition oneOpenThousandCompleted : gmap string Z :=
  {[ "OPEN" := 1; "COMPLETED" := 1000 ]}.

Definition quarterOpen : gmap string Z :=
  {[ "OPEN" := 1; "PENDING" := 0; "CLOSED" := 3 ]}.

Definition withNegativeCount : gmap string Z :=
  {[ "OPEN" := 1; "PENDING" := -5 ]}.

Definition withUnknownKey : gmap string Z :=
  {[ "OPEN" := 1; "ARCHIVED" := 1 ]}.

Definition allZero : gmap string Z :=
  {[ "OPEN" := 0; "PENDING" := 0; "INPROGRESS" := 0; "CLOSED" := 0; "COMPLETED" := 0 ]}.

Definition onlyOpen : gmap string Z := {[ "OPEN" := 1 ]}.

Definition onePending : gmap string Z := {[ "OPEN" := 2; "PENDING" := 1 ]}.

(** Calls of the host's callback in a trace. *)
Definition isHostNotification (call : Call) : bool :=
  match call with
  | onNavigateToTickets _ => true
  | navigate _ => false
  end.

(** The department identifier of the current user, when user data is
    loaded. *)
Definition currentDepartment (st : ShowCompanyPage.State) : option Z :=
  ShowCompanyPage.departmentId <$> ShowCompanyPage.userData st.

(** Example states of the company page: one company in the list and
    selected, seen by a user of department 2 and by a SuperAdmin. *)
Definition acme : ShowCompanyPage.Company :=
  ShowCompanyPage.mkCompany 7 "Acme" "info@acme.test" "555-0100" "1 Main St" "".

Definition userOfDepartment (d : Z) : ShowCompanyPage.UserData :=
  ShowCompanyPage.mkUserData (Some 3) d None "Asha" None.

Definition pageOf (d : Z) : ShowCompanyPage.State :=
  ShowCompanyPage.mkState [acme] false "" (Some acme) false false
                          (Some (userOfDepartment d)).

(** ** Further vocabulary *)

(** The tooltip box of a rendered chart, when it shows one. *)
Definition tooltipBoxOf (r : Rendered) : option TooltipBox :=
  match r with
  | EmptyState _ _ _ => None
  | Chart _ _ box => box
  end.

(** The number in the centre of a rendered chart. *)
Definition centerTotalOf (r : Rendered) : option Z :=
  match r with
  | EmptyState _ _ _ => None
  | Chart _ centerTotal _ => Some centerTotal
  end.


(** Two circles drawn alike: same category and colour, arcs and offsets
    equal as numbers. *)
Definition sameArc (c c' : Circle) : Prop :=
  key c = key c' ∧ stroke c = stroke c'
  ∧ (arcLength c == arcLength c')%Q
  ∧ (strokeDashoffset c == strokeDashoffset c')%Q.

(** [hay] holds [needle] as a contiguous piece. *)
Definition contains (hay needle : string) : Prop :=
  ∃ pre post, hay = pre +:+ needle +:+ post.

(** A counts mapping with one ticket in each of three categories. *)
Definition threeEven : gmap string Z :=
  {[ "OPEN" := 1; "PENDING" := 1; "CLOSED" := 1 ]}.

(** A counts mapping with a single category. *)
Definition fiveOpen : gmap string Z :=
  {[ "OPEN" := 5; "PENDING" := 0; "INPROGRESS" := 0; "CLOSED" := 0; "COMPLETED" := 0 ]}.


(** The card of a status in a page view. *)
Definition cardOf (view : DashboardHome.PageView) (s : string) : list DashboardHome.Card :=
  filter (λ card, DashboardHome.card_key card = s) (DashboardHome.cards view).

(** A response of the company endpoints that the page takes as a success:
    a body whose code is 1. *)
Definition answeredWithCode1 (res : ShowCompanyPage.Response) : bool :=
  match res with
  | ShowCompanyPage.resolved code _ _ => code =? 1
  | ShowCompanyPage.rejected _ => false
  end.

(** The list a response with code 1 carries; a missing list counts as
    empty. *)
Definition listOf (res : ShowCompanyPage.Response) : list ShowCompanyPage.Company :=
  match res with
  | ShowCompanyPage.resolved _ _ data => default [] data
  | ShowCompanyPage.rejected _ => []
  end.

(** Requests that change data on the server. *)
Definition isWrite (call : ShowCompanyPage.Effect) : bool :=
  match call with
  | ShowCompanyPage.axios_put _ _ => true
  | ShowCompanyPage.axios_delete _ => true
  | _ => false
  end.

(** Requests of any kind. *)
Definition isRequest (call : ShowCompanyPage.Effect) : bool :=
  match call with
  | ShowCompanyPage.axios_get _ => true
  | ShowCompanyPage.axios_put _ _ => true
  | ShowCompanyPage.axios_delete _ => true
  | _ => false
  end.

(** A second company for the examples, and a page that lists both. *)
Definition globex : ShowCompanyPage.Company :=
  ShowCompanyPage.mkCompany 9 "Globex" "sales@globex.test" "555-0199" "9 Side St"
                            "https://globex.test/logo.png".

Definition twoCompanies (d : Z) (searched : string) : ShowCompanyPage.State :=
  ShowCompanyPage.mkState [acme; globex] false searched None false false
                          (Some (userOfDepartment d)).

(** The user record that a [getById] response makes the page adopt. *)
Definition acceptedUser (res : ShowCompanyPage.UserResponse)
  : option ShowCompanyPage.UserData :=
  match res with
  | ShowCompanyPage.user_resolved code data => if code =? 1 then data else None
  | ShowCompanyPage.user_rejected _ => None
  end.

(** Stand-ins for the built-ins in the examples: a decoder that finds the
    user identifier 3 in every token, and a JSON codec that knows one
    record. *)
Definition decodeAsUser3 (cleanToken : string) : option ShowCompanyPage.TokenPayload :=
  Some (ShowCompanyPage.mkTokenPayload None (Some 3) None None).

Definition parseIntNaN (s : string) : ShowCompanyPage.JsNumber := ShowCompanyPage.NaN.

Definition stringifyAdmin (u : ShowCompanyPage.UserData) : string :=
  "{departmentId:1}".

Definition parseAdmin (s : string) : option ShowCompanyPage.UserData :=
  if String.eqb s "{departmentId:1}" then Some (userOfDepartment 1) else None.

Definition freshPage : ShowCompanyPage.State :=
  ShowCompanyPage.mkState [] true "" None false false None.

(** A delete answer that the user page takes as a success. *)
Definition deletedWithCode1 (res : ShowUserPage.DeleteResponse) : bool :=
  match res with
  | ShowUserPage.delete_resolved code _ => code =? 1
  | ShowUserPage.delete_rejected _ => false
  end.

(** A list answer that the user page takes as a success. *)
Definition listedWithCode1Or200 (res : ShowUserPage.ListResponse) : bool :=
  match res with
  | ShowUserPage.list_resolved code _ _ => (code =? 1) || (code =? 200)
  | ShowUserPage.list_rejected _ => false
  end.

Definition usersOf (res : ShowUserPage.ListResponse) : list ShowUserPage.User :=
  match res with
  | ShowUserPage.list_resolved _ _ data => default [] data
  | ShowUserPage.list_rejected _ => []
  end.

(** Example data of the user page: a user without department, role and
    company names, on a page seen by a user of department [d]. *)
Definition asha : ShowUserPage.User :=
  ShowUserPage.mkUser 3 "asha" "asha@crm.test" "555-0101" 4 None None None 12 None.

Definition userPageOf (d : Z) : ShowUserPage.State :=
  ShowUserPage.mkState [asha] false "" (Some asha) false true
    (Some (ShowUserPage.mkUserData (Some 8) d None "Ravi" None)).

(** * Properties *)

Import DashboardHome.

(** ** The total of a counts mapping *)

Lemma foldl_add_shift (xs : list Z) (a : Z) :
  foldl (λ sum count, sum + count) a xs = a + foldl (λ sum count, sum + count) 0 xs.
Proof.
  revert a. induction xs as [|v xs IH]; intros a; simpl; [lia|].
  rewrite (IH (a + v)), (IH (0 + v)). lia.
Qed.

Lemma foldl_add_perm (xs ys : list Z) :
  xs ≡ₚ ys →
  foldl (λ sum count, sum + count) 0 xs = foldl (λ sum count, sum + count) 0 ys.
Proof.
  induction 1 as [|v xs ys _ IH|v w xs|xs ys zs _ IH1 _ IH2]; simpl.
  - reflexivity.
  - rewrite (foldl_add_shift xs (0 + v)), (foldl_add_shift ys (0 + v)). lia.
  - rewrite (foldl_add_shift xs (0 + v + w)), (foldl_add_shift xs (0 + w + v)). lia.
  - congruence.
Qed.

Lemma total_empty : total ∅ = 0.
Proof. reflexivity. Qed.

Lemma total_insert (data : gmap string Z) (k : string) (v : Z) :
  data !! k = None → total (<[k:=v]> data) = total data + v.
Proof.
  intros Hk. unfold total, Object_values, reduce.
  rewrite (foldl_add_perm _ (v :: (map_to_list data).*2)).
  - simpl. rewrite (foldl_add_shift _ (0 + v)). lia.
  - rewrite map_to_list_insert by done. reflexivity.
Qed.

Lemma total_delete (data : gmap string Z) (k : string) (v : Z) :
  data !! k = Some v → total data = v + total (delete k data).
Proof.
  intros Hk. rewrite <- (insert_delete_id data k v Hk) at 1.
  rewrite total_insert by apply lookup_delete_eq. lia.
Qed.

(** ** The segments and their circles *)

Lemma segments_eq (data : gmap string Z) (T : Z) :
  segments data T = segmentOf data T <$> renderedCategories data.
Proof. reflexivity. Qed.

Lemma statusOrder_NoDup : NoDup statusOrder.
Proof. apply (bool_decide_unpack _). vm_compute. exact I. Qed.

Lemma renderedCategories_NoDup (data : gmap string Z) : NoDup (renderedCategories data).
Proof. apply NoDup_filter, statusOrder_NoDup. Qed.

Lemma elem_of_renderedCategories (data : gmap string Z) (s : string) :
  s ∈ renderedCategories data ↔ s ∈ statusOrder ∧ ∃ c, data !! s = Some c ∧ 0 < c.
Proof.
  unfold renderedCategories. rewrite list_elem_of_filter.
  split.
  - intros [Hpos Hin]. split; [done|].
    destruct (data !! s) as [c|]; simpl in Hpos; [|done].
    exists c. split; [done|]. by apply Z.ltb_lt.
  - intros [Hin (c & -> & Hc)]. split; [|done]. simpl. by apply Z.ltb_lt.
Qed.

Lemma renderedCategories_split (data : gmap string Z) (pre post : list string) (s : string) :
  statusOrder = pre ++ s :: post →
  gt0 (data !! s) = true →
  renderedCategories data
  = filter (λ status, gt0 (data !! status) = true) pre
      ++ s :: filter (λ status, gt0 (data !! status) = true) post.
Proof.
  intros Hsplit Hs. unfold renderedCategories. rewrite Hsplit.
  rewrite filter_app, filter_cons_True by done. reflexivity.
Qed.

Lemma renderSegments_app (acc : Q) (pre post : list Segment) (seg : Segment) :
  renderSegments acc (pre ++ seg :: post)
  = renderSegments acc pre
      ++ circleAt (foldl (λ a sg, a + percentage sg)%Q acc pre) seg
      :: renderSegments (foldl (λ a sg, a + percentage sg)%Q acc pre + percentage seg)%Q post.
Proof.
  revert acc. induction pre as [|p pre IH]; intros acc; simpl; [reflexivity|].
  f_equal. apply IH.
Qed.

Lemma renderSegments_length (acc : Q) (segs : list Segment) :
  length (renderSegments acc segs) = length segs.
Proof. revert acc. induction segs as [|p segs IH]; intros acc; simpl; [done|]. by rewrite IH. Qed.

Lemma renderSegments_keys (acc : Q) (segs : list Segment) :
  key <$> renderSegments acc segs = status <$> segs.
Proof.
  revert acc. induction segs as [|p segs IH]; intros acc; simpl; [done|]. by rewrite IH.
Qed.

Lemma elem_of_renderSegments (acc : Q) (segs : list Segment) (c : Circle) :
  c ∈ renderSegments acc segs → ∃ acc' seg, seg ∈ segs ∧ c = circleAt acc' seg.
Proof.
  revert acc. induction segs as [|p segs IH]; intros acc; simpl.
  - by intros ?%elem_of_nil.
  - intros [->|Hin]%elem_of_cons.
    + exists acc, p. split; [left|reflexivity].
    + destruct (IH _ Hin) as (acc' & seg & Hseg & ->).
      exists acc', seg. split; [by right|reflexivity].
Qed.

Lemma foldl_percentages (acc : Q) (segs : list Segment) :
  (foldl (λ a sg, a + percentage sg) acc segs == acc + sumQ (percentage <$> segs))%Q.
Proof.
  revert acc. induction segs as [|p segs IH]; intros acc; cbn [foldl].
  - unfold sumQ. simpl. lra.
  - rewrite IH, fmap_cons. unfold sumQ. cbn [foldr]. lra.
Qed.

Lemma segments_keys (data : gmap string Z) (T : Z) :
  status <$> segments data T = renderedCategories data.
Proof.
  rewrite segments_eq, <- list_fmap_compose.
  rewrite <- (list_fmap_id (renderedCategories data)) at 2.
  apply list_fmap_ext. reflexivity.
Qed.

Lemma DonutChart_circles (data : gmap string Z) (tooltip : option Tooltip) :
  total data ≠ 0 →
  circlesOf (DonutChart data tooltip) = renderSegments 0 (segments data (total data)).
Proof.
  intros HT. unfold DonutChart.
  destruct (total data =? 0) eqn:E; [apply Z.eqb_eq in E; done|reflexivity].
Qed.

Lemma circumference_pos : (0 < circumference)%Q.
Proof. reflexivity. Qed.

Lemma truePercentage_pos (data : gmap string Z) (s : string) (c : Z) :
  0 < total data → data !! s = Some c → 0 < c → (0 < truePercentage data s)%Q.
Proof.
  intros HT Hs Hc. unfold truePercentage. rewrite Hs. simpl.
  apply Qmult_lt_0_compat; [|reflexivity].
  apply Qlt_shift_div_l.
  - change 0%Q with (inject_Z 0). by rewrite <- Zlt_Qlt.
  - rewrite Qmult_0_l. change 0%Q with (inject_Z 0). by rewrite <- Zlt_Qlt.
Qed.

(** Behind the filter every segment reads a count and a colour that are
    present: the defaults of [num] and of the colour lookup are never used. *)
Lemma segments_count_present (data : gmap string Z) (T : Z) (seg : Segment) :
  seg ∈ segments data T →
  data !! status seg = Some (count seg) ∧ 0 < count seg.
Proof.
  rewrite segments_eq. intros (s & -> & Hs)%list_elem_of_fmap_1.
  apply elem_of_renderedCategories in Hs as (_ & c & Hc & Hpos).
  simpl. by rewrite Hc.
Qed.

Lemma segments_color_present (data : gmap string Z) (T : Z) (seg : Segment) :
  seg ∈ segments data T →
  colors !! status seg = Some (color seg).
Proof.
  rewrite segments_eq. intros (s & -> & Hs)%list_elem_of_fmap_1.
  apply elem_of_renderedCategories in Hs as (Hs & _). simpl.
  unfold statusOrder in Hs.
  repeat (apply elem_of_cons in Hs as [->|Hs]; [reflexivity|]).
  by apply elem_of_nil in Hs.
Qed.

Lemma NoDup_fmap_inj_on {A B : Type} (f : A → B) (l : list A) (a b : A) :
  NoDup (f <$> l) → a ∈ l → b ∈ l → f a = f b → a = b.
Proof.
  induction l as [|h l IH]; [by intros _ ?%elem_of_nil|].
  rewrite fmap_cons, NoDup_cons.
  intros [Hh Hnd] [->|Ha]%elem_of_cons [->|Hb]%elem_of_cons Hab; [done| | |by apply IH].
  - exfalso. apply Hh. rewrite Hab. by apply list_elem_of_fmap_2.
  - exfalso. apply Hh. rewrite <- Hab. by apply list_elem_of_fmap_2.
Qed.

Lemma circles_keys_NoDup (data : gmap string Z) (tooltip : option Tooltip) :
  NoDup (key <$> circlesOf (DonutChart data tooltip)).
Proof.
  unfold DonutChart. destruct (total data =? 0); simpl; [constructor|].
  rewrite renderSegments_keys, segments_keys. apply renderedCategories_NoDup.
Qed.

(** The circle of a rendered category sits in the chart right after the
    circles of the rendered categories that precede it, at the accumulated
    percentage the loop has reached there. *)
Lemma circle_of_category (data : gmap string Z) (tooltip : option Tooltip)
    (pre post : list string) (s : string) :
  total data ≠ 0 →
  statusOrder = pre ++ s :: post →
  gt0 (data !! s) = true →
  ∃ before after acc,
    circlesOf (DonutChart data tooltip)
    = before ++ circleAt acc (segmentOf data (total data) s) :: after
    ∧ key <$> before = filter (λ status, gt0 (data !! status) = true) pre
    ∧ (acc == sumQ (truePercentage data
                      <$> filter (λ status, gt0 (data !! status) = true) pre))%Q.
Proof.
  intros HT Hsplit Hs.
  rewrite DonutChart_circles, segments_eq by done.
  rewrite (renderedCategories_split data pre post s Hsplit Hs).
  rewrite fmap_app, fmap_cons, renderSegments_app.
  eexists _, _, _. split; [reflexivity|]. split.
  - rewrite renderSegments_keys, <- list_fmap_compose.
    rewrite <- (list_fmap_id (filter _ pre)) at 2.
    apply list_fmap_ext. reflexivity.
  - rewrite foldl_percentages, Qplus_0_l, <- list_fmap_compose. reflexivity.
Qed.

Lemma arcLength_circleAt (acc : Q) (seg : Segment) :
  arcLength (circleAt acc seg)
  = (Math_max (percentage seg) minVisiblePercentage / 100 * circumference)%Q.
Proof. reflexivity. Qed.

(** C1. For a counts mapping with a positive total, every category of the
    fixed order with a positive count has exactly one circle in the chart,
    and the arc length of that circle is max(true percentage, 0.5) / 100 of
    the circumference: the true share when the true percentage is at least
    0.5, and 0.5 / 100 of the circumference when it lies strictly between 0
    and 0.5. *)
Theorem arc_length_is_floored_share
    (data : gmap string Z) (tooltip : option Tooltip) (s : string) (c : Z) :
  0 < total data →
  s ∈ statusOrder →
  data !! s = Some c →
  0 < c →
  ∃ circle,
    circle ∈ circlesOf (DonutChart data tooltip)
    ∧ key circle = s
    ∧ (∀ other, other ∈ circlesOf (DonutChart data tooltip) → key other = s →
                other = circle)
    ∧ (0 < truePercentage data s)%Q
    ∧ (arcLength circle == Qmax (truePercentage data s) (1 # 2) / 100 * circumference)%Q
    ∧ ((1 # 2 <= truePercentage data s)%Q →
       (arcLength circle == truePercentage data s / 100 * circumference)%Q)
    ∧ ((truePercentage data s < 1 # 2)%Q →
       (arcLength circle == (1 # 2) / 100 * circumference)%Q).
Proof.
  intros HT Hin Hs Hc.
  assert (Hpos : gt0 (data !! s) = true) by (rewrite Hs; simpl; by apply Z.ltb_lt).
  destruct (list_elem_of_split _ _ Hin) as (pre & post & Hsplit).
  destruct (circle_of_category data tooltip pre post s) as (before & after & acc & Heq & _);
    [lia|done|done|].
  exists (circleAt acc (segmentOf data (total data) s)).
  assert (Hmem : circleAt acc (segmentOf data (total data) s)
                 ∈ circlesOf (DonutChart data tooltip)).
  { rewrite Heq. apply elem_of_app. right. left. }
  split; [done|]. split; [reflexivity|]. split.
  { intros other Hother Hkey.
    apply (NoDup_fmap_inj_on key (circlesOf (DonutChart data tooltip)));
      [apply circles_keys_NoDup|done|done|done]. }
  split; [by eapply truePercentage_pos|].
  rewrite arcLength_circleAt. unfold Math_max, minVisiblePercentage.
  change (percentage (segmentOf data (total data) s)) with (truePercentage data s).
  split; [reflexivity|]. split.
  - intros Hge. by rewrite Q.max_l.
  - intros Hlt. rewrite Q.max_r; [reflexivity|]. by apply Qlt_le_weak.
Qed.

Lemma arc_length_is_floored_share_witness :
  ∃ circle,
    circle ∈ circlesOf (DonutChart oneOpenThousandCompleted None)
    ∧ key circle = "OPEN"
    ∧ (arcLength circle == (1 # 2) / 100 * circumference)%Q.
Proof.
  destruct (arc_length_is_floored_share
              oneOpenThousandCompleted None "OPEN" 1)
    as (circle & Hin & Hkey & _ & _ & _ & _ & Hfloor).
  - vm_compute. reflexivity.
  - unfold statusOrder. left.
  - reflexivity.
  - lia.
  - exists circle. split; [exact Hin|]. split; [exact Hkey|].
    apply Hfloor. vm_compute. reflexivity.
Defined.

(** C2. For a counts mapping with a positive total, the circle of a
    rendered category [s] comes right after the circles of the rendered
    categories that precede [s] in the fixed order, and its dash offset is
    the (negated, as SVG wants it) cumulative sum of the true percentages of
    those categories, scaled to the circumference.  The floor enters the
    dash array only: the offset is a function of true percentages alone. *)
Theorem start_offset_is_cumulative_true_percentage
    (data : gmap string Z) (tooltip : option Tooltip)
    (pre post : list string) (s : string) :
  0 < total data →
  statusOrder = pre ++ s :: post →
  gt0 (data !! s) = true →
  let preceding := filter (λ status, gt0 (data !! status) = true) pre in
  ∃ circle,
    circlesOf (DonutChart data tooltip) !! length preceding = Some circle
    ∧ key circle = s
    ∧ key <$> take (length preceding) (circlesOf (DonutChart data tooltip)) = preceding
    ∧ (strokeDashoffset circle
       == - sumQ (truePercentage data <$> preceding) * circumference / 100)%Q.
Proof.
  intros HT Hsplit Hs preceding.
  destruct (circle_of_category data tooltip pre post s)
    as (before & after & acc & Heq & Hkeys & Hacc); [lia|done|done|].
  fold preceding in Hkeys, Hacc.
  assert (Hlen : length preceding = length before).
  { by rewrite <- Hkeys, length_fmap. }
  exists (circleAt acc (segmentOf data (total data) s)).
  rewrite Heq, Hlen. split; [|split; [reflexivity|split]].
  - by rewrite list_lookup_middle.
  - by rewrite take_app_length.
  - simpl. rewrite Hacc. reflexivity.
Qed.

Lemma start_offset_is_cumulative_true_percentage_witness :
  ∃ circle,
    circlesOf (DonutChart quarterOpen None) !! 1%nat
    = Some circle
    ∧ key circle = "CLOSED"
    ∧ (strokeDashoffset circle == - 25 * circumference / 100)%Q.
Proof.
  destruct (start_offset_is_cumulative_true_percentage
              quarterOpen None
              ["OPEN"; "PENDING"; "INPROGRESS"] ["COMPLETED"] "CLOSED")
    as (circle & Hlookup & Hkey & _ & Hoffset).
  - vm_compute. reflexivity.
  - reflexivity.
  - reflexivity.
  - exists circle. split; [exact Hlookup|]. split; [exact Hkey|].
    rewrite Hoffset. vm_compute. reflexivity.
Defined.

(** C7. Whatever the counts are, negative ones included, every circle of
    the chart has a strictly positive arc length, at least 0.5 / 100 of the
    circumference. *)
Theorem arc_length_never_negative
    (data : gmap string Z) (tooltip : option Tooltip) (circle : Circle) :
  circle ∈ circlesOf (DonutChart data tooltip) →
  (0 < (1 # 2) / 100 * circumference)%Q
  ∧ ((1 # 2) / 100 * circumference <= arcLength circle)%Q.
Proof.
  intros Hin. split; [reflexivity|].
  unfold DonutChart in Hin. destruct (total data =? 0); simpl in Hin.
  - by apply elem_of_nil in Hin.
  - apply elem_of_renderSegments in Hin as (acc & seg & _ & ->).
    rewrite arcLength_circleAt. unfold Math_max, minVisiblePercentage.
    apply Qmult_le_compat_r; [|by apply Qlt_le_weak, circumference_pos].
    apply Qmult_le_compat_r; [apply Q.le_max_r|].
    apply Qlt_le_weak, Qinv_lt_0_compat. reflexivity.
Qed.

Lemma arc_length_never_negative_witness :
  ∃ circle,
    circlesOf (DonutChart withNegativeCount None) = [circle]
    ∧ Qeq (percentage (segmentOf withNegativeCount (-4) "OPEN")) (-25 # 1)%Q
    ∧ (0 < arcLength circle)%Q.
Proof.
  eexists. split; [vm_compute; reflexivity|]. split; [vm_compute; reflexivity|].
  eapply Qlt_le_trans;
    eapply (arc_length_never_negative withNegativeCount None);
    vm_compute; left.
Defined.

(** ** The sum of the true percentages *)

Lemma total_over_keys (ks : list string) (data : gmap string Z) :
  NoDup ks →
  (∀ k, is_Some (data !! k) → k ∈ ks) →
  total data = sumZ ((λ k, num (data !! k)) <$> ks).
Proof.
  intros Hnd. revert data.
  induction Hnd as [|k ks Hk Hnd IH]; intros data Hdom.
  - assert (data = ∅) as ->; [|reflexivity].
    apply map_empty. intros k. apply eq_None_not_Some. intros Hsome.
    by apply Hdom, elem_of_nil in Hsome.
  - rewrite fmap_cons. cbn [sumZ foldr].
    assert (Hrest : ∀ m : gmap string Z,
               (∀ k', k' ≠ k → m !! k' = data !! k') →
               (λ k', num (m !! k')) <$> ks = (λ k', num (data !! k')) <$> ks).
    { intros m Hm. apply list_fmap_ext. intros i k' Hi. simpl.
      rewrite Hm; [done|]. intros ->. apply Hk. by eapply list_elem_of_lookup_2. }
    destruct (data !! k) as [v|] eqn:Hv; simpl.
    + rewrite (total_delete data k v Hv). f_equal.
      rewrite (IH (delete k data)).
      * unfold sumZ. f_equal. apply Hrest. intros k' Hne. by apply lookup_delete_ne.
      * intros k' [w Hw]. apply lookup_delete_Some in Hw as [Hne Hw].
        assert (Hin : k' ∈ k :: ks) by (apply Hdom; by eexists).
        apply elem_of_cons in Hin as [->|Hin]; done.
    + rewrite (IH data); [reflexivity|].
      intros k' Hsome. assert (Hin := Hdom k' Hsome).
      apply elem_of_cons in Hin as [->|Hin]; [|done].
      rewrite Hv in Hsome. by destruct Hsome.
Qed.

Lemma sum_of_positive_counts (data : gmap string Z) (l : list string) :
  (∀ k v, data !! k = Some v → 0 ≤ v) →
  sumZ ((λ k, num (data !! k)) <$> l)
  = sumZ ((λ k, num (data !! k)) <$> filter (λ status, gt0 (data !! status) = true) l).
Proof.
  intros Hnn. induction l as [|k l IH]; [reflexivity|].
  rewrite fmap_cons. cbn [sumZ foldr]. fold (sumZ ((λ k, num (data !! k)) <$> l)).
  destruct (gt0 (data !! k)) eqn:Hk.
  - rewrite filter_cons_True, fmap_cons by done. cbn [sumZ foldr].
    fold (sumZ ((λ k, num (data !! k))
                  <$> filter (λ status, gt0 (data !! status) = true) l)).
    by rewrite IH.
  - rewrite filter_cons_False by (by rewrite Hk). rewrite <- IH.
    destruct (data !! k) as [v|] eqn:Hv; simpl in *; [|lia].
    apply Z.ltb_ge in Hk. specialize (Hnn k v Hv). lia.
Qed.

Lemma wellFormed_renderedCount (data : gmap string Z) :
  wellFormed data → renderedCount data = total data.
Proof.
  intros Hwf. unfold renderedCount, renderedCategories.
  rewrite <- sum_of_positive_counts by (intros k v Hkv; by apply (Hwf k v)).
  symmetry. apply total_over_keys; [apply statusOrder_NoDup|].
  intros k [v Hv]. by apply (Hwf k v).
Qed.

Lemma sum_of_percentages (data : gmap string Z) (T : Z) (l : list string) :
  T ≠ 0 →
  (sumQ (percentage <$> (segmentOf data T <$> l))
   == 100 * inject_Z (sumZ ((λ s, num (data !! s)) <$> l)) / inject_Z T)%Q.
Proof.
  intros HT.
  assert (HTq : ¬ (inject_Z T == 0)%Q).
  { change 0%Q with (inject_Z 0). by rewrite inject_Z_injective. }
  induction l as [|s l IH].
  - simpl. unfold sumQ, sumZ. simpl. field. exact HTq.
  - rewrite !fmap_cons. unfold sumQ, sumZ in *. cbn [foldr].
    rewrite IH, inject_Z_plus. simpl. field. exact HTq.
Qed.

(** C3, as the code has it.  The total is the sum of every value of the
    mapping, while segments exist for the categories of the fixed order
    with a positive count.  So for a positive total the true percentages of
    the rendered segments sum to 100 times the sum of the rendered counts
    over the total; this is 100 exactly when the rendered counts make up
    the whole total, and in particular for every mapping whose keys are
    categories of the fixed order and whose counts are not negative. *)
Theorem true_percentages_sum
    (data : gmap string Z) :
  0 < total data →
  (sumQ (percentage <$> segments data (total data))
   == 100 * inject_Z (renderedCount data) / inject_Z (total data))%Q
  ∧ ((sumQ (percentage <$> segments data (total data)) == 100)%Q
     ↔ renderedCount data = total data)
  ∧ (wellFormed data →
     (sumQ (percentage <$> segments data (total data)) == 100)%Q).
Proof.
  intros HT.
  assert (HTq : ¬ (inject_Z (total data) == 0)%Q).
  { change 0%Q with (inject_Z 0). rewrite inject_Z_injective. lia. }
  assert (Hsum := sum_of_percentages data (total data) (renderedCategories data)
                    ltac:(lia)).
  rewrite <- segments_eq in Hsum. fold (renderedCount data) in Hsum.
  assert (Hiff : (sumQ (percentage <$> segments data (total data)) == 100)%Q
                 ↔ renderedCount data = total data).
  { rewrite Hsum. split.
    - intros Heq. apply inject_Z_injective.
      assert (Hp : (inject_Z (renderedCount data)
                    == (100 * inject_Z (renderedCount data) / inject_Z (total data))
                       * inject_Z (total data) / 100)%Q) by (field; exact HTq).
      rewrite Hp, Heq. field.
    - intros ->. field. exact HTq. }
  split; [exact Hsum|]. split; [exact Hiff|].
  intros Hwf. apply Hiff. by apply wellFormed_renderedCount.
Qed.

Lemma true_percentages_sum_witness :
  (sumQ (percentage
           <$> segments quarterOpen
                        (total quarterOpen))
   == 100)%Q.
Proof.
  apply (true_percentages_sum quarterOpen).
  - vm_compute. reflexivity.
  - intros k v Hkv.
    unfold quarterOpen in Hkv.
    repeat (apply lookup_insert_Some in Hkv as [[<- <-]|[_ Hkv]];
            [split; [apply (bool_decide_unpack _); vm_compute; exact I|lia]|]).
    apply lookup_singleton_Some in Hkv as [<- <-].
    split; [apply (bool_decide_unpack _); vm_compute; exact I|lia].
Defined.

(** C3, as stated, fails: a key outside the fixed order adds to the total
    and has no segment.  With [{OPEN: 1, ARCHIVED: 1}] the total is 2 and
    the only segment, OPEN, has true percentage 50. *)
Lemma true_percentages_sum_counterexample :
  0 < total withUnknownKey
  ∧ status <$> segments withUnknownKey
                        (total withUnknownKey) = ["OPEN"]
  ∧ (sumQ (percentage
             <$> segments withUnknownKey
                          (total withUnknownKey)) == 50)%Q
  ∧ ¬ (sumQ (percentage
               <$> segments withUnknownKey
                            (total withUnknownKey)) == 100)%Q.
Proof.
  split; [vm_compute; reflexivity|]. split; [vm_compute; reflexivity|].
  split; [vm_compute; reflexivity|]. vm_compute. discriminate.
Qed.

(** ** Order and number of the segments *)

Lemma segments_per_category (data : gmap string Z) (T : Z) (s : string) (l : list string) :
  NoDup l →
  length (filter (λ seg, status seg = s)
                 (segmentOf data T <$> filter (λ status, gt0 (data !! status) = true) l))
  = if bool_decide (s ∈ l) && gt0 (data !! s) then 1%nat else 0%nat.
Proof.
  induction 1 as [|k l Hk Hnd IH]; [reflexivity|].
  destruct (decide (k = s)) as [->|Hne].
  - assert (Hnone : bool_decide (s ∈ l) = false) by by apply bool_decide_eq_false.
    rewrite Hnone in IH. simpl in IH.
    rewrite (bool_decide_eq_true_2 (s ∈ s :: l)) by left. simpl.
    destruct (gt0 (data !! s)) eqn:Hs.
    + rewrite filter_cons_True, fmap_cons, filter_cons_True by done.
      simpl. by rewrite IH.
    + rewrite filter_cons_False by (by rewrite Hs). exact IH.
  - assert (Hsame : bool_decide (s ∈ k :: l) = bool_decide (s ∈ l)).
    { apply bool_decide_ext. rewrite elem_of_cons.
      split; [intros [Heq|Hin]; [by subst|done]|by right]. }
    rewrite Hsame, <- IH.
    destruct (gt0 (data !! k)) eqn:Hpos.
    + rewrite filter_cons_True, fmap_cons, filter_cons_False by done. reflexivity.
    + rewrite filter_cons_False by (by rewrite Hpos). reflexivity.
Qed.

(** C4. For every counts mapping the segment list has exactly one segment
    for each category of the fixed order whose count is positive and none
    for anything else; the segments stand in the fixed order (their
    statuses are the fixed order with some entries left out), whatever the
    magnitudes; the circles of the chart are drawn for these segments in
    this order whenever a chart is drawn.  With [{OPEN: 1, COMPLETED: 1000}]
    the first circle is OPEN's and starts at offset 0. *)
Theorem segments_follow_fixed_order
    (data : gmap string Z) (T : Z) :
  (∀ s, length (filter (λ seg, status seg = s) (segments data T))
        = if bool_decide (s ∈ statusOrder) && gt0 (data !! s) then 1%nat else 0%nat)
  ∧ status <$> segments data T `sublist_of` statusOrder
  ∧ status <$> segments data T
    = filter (λ status, gt0 (data !! status) = true)
             ["OPEN"; "PENDING"; "INPROGRESS"; "CLOSED"; "COMPLETED"]
  ∧ (∀ tooltip,
       key <$> circlesOf (DonutChart data tooltip)
       = if total data =? 0 then [] else status <$> segments data (total data))
  ∧ ∃ first rest,
      circlesOf (DonutChart oneOpenThousandCompleted None) = first :: rest
      ∧ key first = "OPEN"
      ∧ (strokeDashoffset first == 0)%Q
      ∧ key <$> rest = ["COMPLETED"].
Proof.
  split; [|split; [|split; [|split]]].
  - intros s. rewrite segments_eq. apply segments_per_category, statusOrder_NoDup.
  - rewrite segments_keys. apply sublist_filter.
  - apply segments_keys.
  - intros tooltip. unfold DonutChart. destruct (total data =? 0); [reflexivity|].
    simpl. apply renderSegments_keys.
  - eexists _, _. split; [vm_compute; reflexivity|].
    split; [reflexivity|]. split; reflexivity.
Qed.

(** ** The empty state *)

Lemma empty_state_iff (data : gmap string Z) (tooltip : option Tooltip) :
  isEmptyState (DonutChart data tooltip) = true ↔ total data = 0.
Proof.
  unfold DonutChart. destruct (total data =? 0) eqn:E; simpl.
  - apply Z.eqb_eq in E. done.
  - apply Z.eqb_neq in E. split; [done|]. intros ?. done.
Qed.

(** C5. When the counts sum to 0 the chart is the empty-state placeholder
    (icon and message) and has no circles; this is the case for the mapping
    that sends each of the five statuses to 0. *)
Theorem zero_total_renders_empty_state
    (data : gmap string Z) (tooltip : option Tooltip) :
  total data = 0 →
  DonutChart data tooltip
  = EmptyState "Activity" "No tickets assigned yet"
               "Tickets will appear here once assigned"
  ∧ circlesOf (DonutChart data tooltip) = []
  ∧ ∀ circles centerTotal box, DonutChart data tooltip ≠ Chart circles centerTotal box.
Proof.
  intros HT. unfold DonutChart. rewrite HT. simpl. done.
Qed.

Lemma zero_total_renders_empty_state_witness :
  total allZero = 0
  ∧ DonutChart allZero None
    = EmptyState "Activity" "No tickets assigned yet"
                 "Tickets will appear here once assigned"
  ∧ circlesOf (DonutChart allZero None) = [].
Proof.
  assert (H0 : total allZero = 0) by (vm_compute; reflexivity).
  destruct (zero_total_renders_empty_state allZero None H0) as (Hempty & Hnone & _).
  split; [exact H0|]. split; [exact Hempty|exact Hnone].
Defined.

(** ** Keys outside the fixed order *)

Lemma segments_ext (d1 d2 : gmap string Z) (T : Z) (l : list string) :
  (∀ s, s ∈ l → d1 !! s = d2 !! s) →
  segmentOf d1 T <$> filter (λ status, gt0 (d1 !! status) = true) l
  = segmentOf d2 T <$> filter (λ status, gt0 (d2 !! status) = true) l.
Proof.
  induction l as [|s l IH]; intros Hl; [reflexivity|].
  assert (Hs : d1 !! s = d2 !! s) by (apply Hl; left).
  assert (Hrest : ∀ s', s' ∈ l → d1 !! s' = d2 !! s') by (intros s' ?; apply Hl; by right).
  destruct (gt0 (d2 !! s)) eqn:E.
  - rewrite (filter_cons_True (λ status, gt0 (d1 !! status) = true)) by congruence.
    rewrite (filter_cons_True (λ status, gt0 (d2 !! status) = true)) by congruence.
    rewrite !fmap_cons, (IH Hrest). f_equal. unfold segmentOf. by rewrite Hs.
  - rewrite (filter_cons_False (λ status, gt0 (d1 !! status) = true)) by congruence.
    rewrite (filter_cons_False (λ status, gt0 (d2 !! status) = true)) by congruence.
    apply IH, Hrest.
Qed.

Lemma segments_insert_unknown (data : gmap string Z) (k : string) (v T : Z) :
  k ∉ statusOrder → segments (<[k:=v]> data) T = segments data T.
Proof.
  intros Hk. rewrite !segments_eq. apply segments_ext.
  intros s Hs. apply lookup_insert_ne. by intros ->.
Qed.

(** C6, as the code has it.  A key outside the fixed order never gets a
    segment or a circle, and the segments of the categories keep their
    statuses and counts; but the total is the sum of every value of the
    mapping, so the value of the extra key is added to the total (and the
    percentages of the categories are computed against that larger total).
    Total, percentages and the whole chart are unaffected exactly in the
    case where the extra key carries the value 0. *)
Theorem unknown_key_is_not_rendered_but_counted
    (data : gmap string Z) (k : string) (v : Z) :
  k ∉ statusOrder →
  data !! k = None →
  (∀ T seg, seg ∈ segments (<[k:=v]> data) T → status seg ≠ k)
  ∧ (∀ tooltip circle,
       circle ∈ circlesOf (DonutChart (<[k:=v]> data) tooltip) → key circle ≠ k)
  ∧ (∀ T, segments (<[k:=v]> data) T = segments data T)
  ∧ total (<[k:=v]> data) = total data + v
  ∧ (v = 0 → ∀ tooltip, DonutChart (<[k:=v]> data) tooltip = DonutChart data tooltip).
Proof.
  intros Hk Hnone.
  assert (Hseg : ∀ T seg, seg ∈ segments (<[k:=v]> data) T → status seg ≠ k).
  { intros T seg Hin Heq. apply Hk.
    assert (Hst : status seg ∈ status <$> segments (<[k:=v]> data) T)
      by by apply list_elem_of_fmap_2.
    rewrite segments_keys in Hst.
    apply elem_of_renderedCategories in Hst as [Hst _]. by rewrite <- Heq. }
  split; [exact Hseg|]. split; [|split; [|split]].
  - intros tooltip circle Hin. unfold DonutChart in Hin.
    destruct (total (<[k:=v]> data) =? 0); simpl in Hin; [by apply elem_of_nil in Hin|].
    apply elem_of_renderSegments in Hin as (acc & seg & Hin & ->). simpl.
    by eapply Hseg.
  - intros T. by apply segments_insert_unknown.
  - by apply total_insert.
  - intros -> tooltip. unfold DonutChart.
    rewrite total_insert, Z.add_0_r, segments_insert_unknown by done. reflexivity.
Qed.

Lemma unknown_key_is_not_rendered_but_counted_witness :
  total (<["ARCHIVED" := 7]> onlyOpen) = total onlyOpen + 7
  ∧ segments (<["ARCHIVED" := 7]> onlyOpen) 8 = segments onlyOpen 8.
Proof.
  destruct (unknown_key_is_not_rendered_but_counted onlyOpen "ARCHIVED" 7)
    as (_ & _ & Hsegs & Htotal & _).
  - apply (bool_decide_unpack _). vm_compute. exact I.
  - reflexivity.
  - split; [exact Htotal|apply Hsegs].
Defined.

(** C6, as stated, fails: adding the key ARCHIVED with value 1 to
    [{OPEN: 1}] changes the total from 1 to 2 and the percentage of OPEN
    from 100 to 50. *)
Lemma unknown_key_affects_total_counterexample :
  ("ARCHIVED" ∉ statusOrder)
  ∧ onlyOpen !! "ARCHIVED" = None
  ∧ total onlyOpen = 1
  ∧ total (<["ARCHIVED" := 1]> onlyOpen) = 2
  ∧ (∃ seg, segments onlyOpen (total onlyOpen) = [seg]
            ∧ status seg = "OPEN" ∧ (percentage seg == 100)%Q)
  ∧ (∃ seg, segments (<["ARCHIVED" := 1]> onlyOpen)
                     (total (<["ARCHIVED" := 1]> onlyOpen)) = [seg]
            ∧ status seg = "OPEN" ∧ (percentage seg == 50)%Q).
Proof.
  split; [apply (bool_decide_unpack _); vm_compute; exact I|].
  split; [reflexivity|]. split; [vm_compute; reflexivity|].
  split; [vm_compute; reflexivity|]. split.
  - eexists. split; [vm_compute; reflexivity|]. split; reflexivity.
  - eexists. split; [vm_compute; reflexivity|]. split; reflexivity.
Qed.

(** ** Clicking a segment *)

(** C8. Clicking the circle of a category runs [handleCardClick] with the
    label of that category: the router is sent to the filtered ticket list
    and the host's [onNavigateToTickets] callback, when the host supplied
    one, is called exactly once, with the label as its argument. *)
Theorem click_notifies_host_once
    (data : gmap string Z) (tooltip : option Tooltip)
    (props : DashboardHomeProps) (circle : Circle) (s : string) :
  circle ∈ circlesOf (DonutChart data tooltip) →
  key circle = s →
  hasOnNavigateToTickets props = true →
  click props circle
  = [navigate ("/home/ticket/show?status=" +:+ s); onNavigateToTickets s]
  ∧ filter (λ call, isHostNotification call = true) (click props circle)
    = [onNavigateToTickets s].
Proof.
  intros Hin Hkey Hcb.
  assert (Hclick : click props circle
                   = [navigate ("/home/ticket/show?status=" +:+ s); onNavigateToTickets s]).
  { unfold DonutChart in Hin.
    destruct (total data =? 0); simpl in Hin; [by apply elem_of_nil in Hin|].
    apply elem_of_renderSegments in Hin as (acc & seg & _ & ->).
    simpl in Hkey. subst s. unfold click, handleCardClick. simpl. by rewrite Hcb. }
  split; [exact Hclick|]. rewrite Hclick.
  rewrite filter_cons_False by (simpl; discriminate).
  rewrite filter_cons_True by reflexivity. reflexivity.
Qed.

Lemma click_notifies_host_once_witness :
  ∃ circle,
    circlesOf (DonutChart onePending None) !! 1%nat = Some circle
    ∧ click (mkProps true) circle
      = [navigate "/home/ticket/show?status=PENDING"; onNavigateToTickets "PENDING"].
Proof.
  eexists. split; [vm_compute; reflexivity|].
  eapply (click_notifies_host_once onePending None (mkProps true) _ "PENDING").
  - vm_compute. right. left.
  - reflexivity.
  - reflexivity.
Defined.

(** ** Hovering a segment *)

(** Moving the pointer over a circle of the chart sets the tooltip to the
    status and raw count of its segment, at the pointer position relative
    to the circle; leaving the circle clears it. *)
Lemma hover_sets_tooltip (acc : Q) (seg : Segment) (e : MouseEvent)
    (tooltip : option Tooltip) :
  mouseMove (circleAt acc seg) e tooltip
  = Some {| tooltip_x := (clientX e - rectLeft e)%Q;
            tooltip_y := (clientY e - rectTop e)%Q;
            tooltip_text := status seg +:+ ": " +:+ pretty (count seg) +:+ " Tickets" |}
  ∧ mouseLeave (circleAt acc seg) tooltip = None.
Proof. split; reflexivity. Qed.

Example hover_pending_text :
  (λ c, mouseMove c (mkMouseEvent 10 20 4 5) None)
    <$> circlesOf (DonutChart onePending None) !! 1%nat
  = Some (Some (mkTooltip (10 - 4)%Q (20 - 5)%Q "PENDING: 1 Tickets")).
Proof. vm_compute. reflexivity. Qed.

(** ** The two copies of the chart *)

Lemma variant_renderSegments (acc : Q) (segs : list Segment) :
  DashboardVariant.renderSegments acc segs
  = withoutHover <$> DashboardHome.renderSegments acc segs.
Proof.
  revert acc. induction segs as [|seg segs IH]; intros acc; [reflexivity|].
  simpl. f_equal. apply IH.
Qed.

(** C10. The chart of [DashboardHome.tsx] and the chart of the second
    dashboard file compute the same total, the same segment list and, for
    every circle, the same key, colour, dash array, dash offset and click
    handler; the second chart is the first one with the mouse handlers and
    the tooltip box left out. *)
Theorem charts_agree_up_to_tooltip
    (data : gmap string Z) (tooltip : option Tooltip) :
  DashboardVariant.total data = DashboardHome.total data
  ∧ (∀ T, DashboardVariant.segments data T = DashboardHome.segments data T)
  ∧ DashboardVariant.circumference = DashboardHome.circumference
  ∧ DashboardVariant.minVisiblePercentage = DashboardHome.minVisiblePercentage
  ∧ isEmptyState (DashboardVariant.DonutChart data)
    = isEmptyState (DashboardHome.DonutChart data tooltip)
  ∧ geometry <$> circlesOf (DashboardVariant.DonutChart data)
    = geometry <$> circlesOf (DashboardHome.DonutChart data tooltip)
  ∧ onClick <$> circlesOf (DashboardVariant.DonutChart data)
    = onClick <$> circlesOf (DashboardHome.DonutChart data tooltip)
  ∧ DashboardVariant.DonutChart data
    = stripHover (DashboardHome.DonutChart data tooltip)
  ∧ Forall (λ c, onMouseMove c = None ∧ onMouseLeave c = None)
           (circlesOf (DashboardVariant.DonutChart data))
  ∧ Forall (λ c, is_Some (onMouseMove c) ∧ onMouseLeave c = Some ClearTooltip)
           (circlesOf (DashboardHome.DonutChart data tooltip)).
Proof.
  assert (Hstrip : DashboardVariant.DonutChart data
                   = stripHover (DashboardHome.DonutChart data tooltip)).
  { unfold DashboardVariant.DonutChart, DashboardHome.DonutChart.
    change (DashboardVariant.total data) with (DashboardHome.total data).
    destruct (DashboardHome.total data =? 0); [reflexivity|].
    simpl. f_equal. apply variant_renderSegments. }
  assert (Hhover : Forall (λ c, is_Some (onMouseMove c) ∧ onMouseLeave c = Some ClearTooltip)
                          (circlesOf (DashboardHome.DonutChart data tooltip))).
  { apply Forall_forall. intros c Hin. unfold DashboardHome.DonutChart in Hin.
    destruct (DashboardHome.total data =? 0); simpl in Hin; [by apply elem_of_nil in Hin|].
    apply elem_of_renderSegments in Hin as (acc & seg & _ & ->). simpl.
    split; [by eexists|reflexivity]. }
  split; [reflexivity|]. split; [reflexivity|]. split; [reflexivity|].
  split; [reflexivity|].
  split; [|split; [|split; [|split; [exact Hstrip|split; [|exact Hhover]]]]];
    rewrite Hstrip;
    destruct (DashboardHome.DonutChart data tooltip) as [|cs ? ?]; simpl;
    try reflexivity; try (by constructor).
  - rewrite <- list_fmap_compose. apply list_fmap_ext. reflexivity.
  - rewrite <- list_fmap_compose. apply list_fmap_ext. reflexivity.
  - apply Forall_fmap, Forall_forall. intros c _. simpl. done.
Qed.

(** ** The company page: the SuperAdmin check *)

Section CompanyPage.

Import ShowCompanyPage.

Variable API_BASE : string.
Variable toLowerCase : string → string.

Lemma isSuperAdmin_iff (st : State) :
  isSuperAdmin st = true ↔ currentDepartment st = Some 1.
Proof.
  unfold isSuperAdmin, currentDepartment.
  destruct (userData st) as [u|]; simpl; [|done].
  rewrite Z.eqb_eq. split; [by intros ->|by intros [= ->]].
Qed.

Lemma not_isSuperAdmin (st : State) :
  currentDepartment st ≠ Some 1 → isSuperAdmin st = false.
Proof.
  intros Hne. destruct (isSuperAdmin st) eqn:E; [|done].
  by apply isSuperAdmin_iff in E.
Qed.

(** C9. The edit and delete controls of the company page hang on one
    test, the department identifier of the current user being 1.  The
    table has its Actions column, and each row its edit and delete
    buttons, if and only if that identifier is 1 (the table itself is on
    screen once the list has loaded).  For any other user the click
    handlers of the buttons only show an error and change nothing, and the
    update and delete handlers of the dialogs, which act on the selected
    company, send no request, show the error and change nothing; the
    company list is the same afterwards in every case. *)
Theorem company_controls_are_gated (st : State) :
  ("Actions" ∈ tableHeader st ↔ currentDepartment st = Some 1)
  ∧ (∀ idx c, is_Some (row_actions (tableRow st idx c)) ↔ currentDepartment st = Some 1)
  ∧ (∀ header body editDialog deleteDialog,
       render toLowerCase st = Page header body editDialog deleteDialog →
       ("Actions" ∈ header ↔ currentDepartment st = Some 1))
  ∧ (currentDepartment st ≠ Some 1 →
     (∀ c, handleEditClick c st
           = (st, [toast_error
                     "You don't have permission to edit companies. Only SuperAdmin can edit."]))
     ∧ (∀ c, handleDeleteClick c st
             = (st, [toast_error
                       "You don't have permission to delete companies. Only SuperAdmin can delete."]))
     ∧ (∀ res refetch, is_Some (selectedCompany st) →
          handleUpdate API_BASE res refetch st
          = (st, [toast_error
                    "You don't have permission to edit companies. Only SuperAdmin can edit."]))
     ∧ (∀ res, is_Some (selectedCompany st) →
          handleDelete API_BASE res st
          = (st, [toast_error
                    "You don't have permission to delete companies. Only SuperAdmin can delete."]))
     ∧ (∀ res refetch,
          companies (handleUpdate API_BASE res refetch st).1 = companies st)
     ∧ (∀ res, companies (handleDelete API_BASE res st).1 = companies st)).
Proof.
  assert (Hheader : "Actions" ∈ tableHeader st ↔ currentDepartment st = Some 1).
  { rewrite <- isSuperAdmin_iff. unfold tableHeader.
    destruct (isSuperAdmin st); split; try done.
    - intros _. apply elem_of_app. right. left.
    - intros Hin. exfalso. revert Hin. simpl.
      apply (bool_decide_unpack _). vm_compute. exact I. }
  split; [exact Hheader|]. split; [|split].
  - intros idx c. rewrite <- isSuperAdmin_iff. unfold tableRow. simpl.
    destruct (isSuperAdmin st); split;
      first [done | by intros _; eexists | by intros [? ?]].
  - intros header body editDialog deleteDialog. unfold render.
    destruct (loading st); [discriminate|]. by intros [= <- _ _ _].
  - intros Hne. apply not_isSuperAdmin in Hne.
    unfold handleEditClick, handleDeleteClick, handleUpdate, handleDelete.
    rewrite Hne. simpl.
    split; [done|]. split; [done|]. split; [|split; [|split]].
    + by intros res refetch [selected ->].
    + by intros res [selected ->].
    + intros res refetch. by destruct (selectedCompany st).
    + intros res. by destruct (selectedCompany st).
Qed.

End CompanyPage.

Lemma company_controls_are_gated_witness :
  ("Actions" ∉ ShowCompanyPage.tableHeader (pageOf 2))
  ∧ ("Actions" ∈ ShowCompanyPage.tableHeader (pageOf 1))
  ∧ ShowCompanyPage.handleDelete "https://crm.test/api"
      (ShowCompanyPage.resolved 1 None None) (pageOf 2)
    = (pageOf 2,
       [ShowCompanyPage.toast_error
          "You don't have permission to delete companies. Only SuperAdmin can delete."]).
Proof.
  destruct (company_controls_are_gated "https://crm.test/api" (λ s, s) (pageOf 2))
    as (Hheader2 & _ & _ & Hgate).
  destruct (company_controls_are_gated "https://crm.test/api" (λ s, s) (pageOf 1))
    as (Hheader1 & _).
  destruct Hgate as (_ & _ & _ & Hdelete & _); [vm_compute; discriminate|].
  split; [|split].
  - intros Hin. apply Hheader2 in Hin. vm_compute in Hin. discriminate.
  - apply Hheader1. reflexivity.
  - apply Hdelete. by eexists.
Defined.

(** The permission check is the only thing in the way: for a SuperAdmin the same
    delete, answered with code 1, removes the company from the list. *)
Example superadmin_delete_removes_company :
  ShowCompanyPage.companies
    (ShowCompanyPage.handleDelete "https://crm.test/api"
       (ShowCompanyPage.resolved 1 None None) (pageOf 1)).1 = []
  ∧ (ShowCompanyPage.handleDelete "https://crm.test/api"
       (ShowCompanyPage.resolved 1 None None) (pageOf 1)).2
    = [ShowCompanyPage.axios_delete "https://crm.test/api/company/delete/7";
       ShowCompanyPage.toast_success "Company deleted successfully!"].
Proof. split; vm_compute; reflexivity. Qed.

(** * Further properties of the chart *)


Lemma wellFormed_percentages_sum (data : gmap string Z) :
  total data ≠ 0 →
  wellFormed data →
  (sumQ (percentage <$> segments data (total data)) == 100)%Q.
Proof.
  intros HT Hwf. rewrite segments_eq, sum_of_percentages by done.
  fold (renderedCount data). rewrite wellFormed_renderedCount by done.
  field. change 0%Q with (inject_Z 0). by rewrite inject_Z_injective.
Qed.

Lemma segments_percentage_pos (data : gmap string Z) (seg : Segment) :
  0 < total data → seg ∈ segments data (total data) → (0 < percentage seg)%Q.
Proof.
  intros HT Hin. destruct (segments_count_present _ _ _ Hin) as [Hc Hpos].
  rewrite segments_eq in Hin. apply list_elem_of_fmap_1 in Hin as (s & -> & _).
  simpl in *. by eapply (truePercentage_pos data s).
Qed.

Lemma sum_of_arcs (acc : Q) (segs : list Segment) :
  (sumQ (arcLength <$> renderSegments acc segs)
   == sumQ ((λ seg, Qmax (percentage seg) (1 # 2)) <$> segs) / 100 * circumference)%Q.
Proof.
  revert acc. induction segs as [|p segs IH]; intros acc.
  - unfold sumQ. simpl. field.
  - cbn [renderSegments]. rewrite !fmap_cons. unfold sumQ in *. cbn [foldr].
    rewrite IH. unfold arcLength. simpl. unfold Math_max, minVisiblePercentage. field.
Qed.



(** X2. For counts that are well formed (keys among the five categories,
    no negative count) and a positive total, the arcs drawn add up to at
    least the circumference and exceed it by at most 0.5 % of it per
    segment, so by at most 2.5 %: this bounds the overlap that the floor
    can cause. *)
Theorem total_arc_length_is_bounded
    (data : gmap string Z) (tooltip : option Tooltip) :
  0 < total data →
  wellFormed data →
  (circumference <= sumQ (arcLength <$> circlesOf (DonutChart data tooltip)))%Q
  ∧ (sumQ (arcLength <$> circlesOf (DonutChart data tooltip))
     <= circumference
        + inject_Z (Z.of_nat (length (circlesOf (DonutChart data tooltip))))
          * ((1 # 2) / 100 * circumference))%Q
  ∧ (sumQ (arcLength <$> circlesOf (DonutChart data tooltip))
     <= (41 # 40) * circumference)%Q.
Proof.
  intros HT Hwf.
  assert (Hsum := wellFormed_percentages_sum data ltac:(lia) Hwf).
  rewrite DonutChart_circles by lia.
  rewrite sum_of_arcs, renderSegments_length.
  assert (Hpos : ∀ seg, seg ∈ segments data (total data) → (0 < percentage seg)%Q)
    by (intros seg; by apply segments_percentage_pos).
  assert (Hlen : (length (segments data (total data)) ≤ 5)%nat).
  { rewrite segments_eq, length_fmap. unfold renderedCategories.
    etrans; [apply length_filter|]. reflexivity. }
  revert Hsum Hpos Hlen. generalize (segments data (total data)). intros segs Hsum Hpos Hlen.
  assert (Hbounds :
    (sumQ (percentage <$> segs) <= sumQ ((λ seg, Qmax (percentage seg) (1 # 2)) <$> segs))%Q
    ∧ (sumQ ((λ seg, Qmax (percentage seg) (1 # 2)) <$> segs)
       <= sumQ (percentage <$> segs) + inject_Z (Z.of_nat (length segs)) * (1 # 2))%Q).
  { clear Hsum Hlen. induction segs as [|p segs IH].
    - unfold sumQ. simpl. change (inject_Z (Z.of_nat 0)) with 0%Q. split; lra.
    - destruct IH as [IHlo IHhi]; [intros seg Hseg; apply Hpos; by right|].
      assert (Hp : (0 < percentage p)%Q) by (apply Hpos; left).
      rewrite !fmap_cons. unfold sumQ in *. cbn [foldr length].
      rewrite Nat2Z.inj_succ, <- Z.add_1_r, inject_Z_plus.
      assert (Hmaxlo := Q.le_max_l (percentage p) (1 # 2)).
      assert (Hmaxhi : (Qmax (percentage p) (1 # 2) <= percentage p + (1 # 2))%Q)
        by (apply Q.max_lub; lra).
      change (inject_Z 1) with 1%Q. split; lra. }
  destruct Hbounds as [Hlo Hhi]. rewrite Hsum in Hlo, Hhi.
  assert (HC := circumference_pos).
  assert (Hn : (inject_Z (Z.of_nat (length segs)) <= 5)%Q).
  { change 5%Q with (inject_Z 5). rewrite <- Zle_Qle. lia. }
  assert (Hscale : ∀ a b : Q, (a <= b)%Q → (a / 100 * circumference <= b / 100 * circumference)%Q).
  { intros a b Hab. apply Qmult_le_compat_r; [|lra].
    apply Qmult_le_compat_r; [done|]. apply Qlt_le_weak, Qinv_lt_0_compat. reflexivity. }
  split; [|split].
  - eapply Qle_trans; [|apply Hscale, Hlo]. apply Qle_lteq. right. field.
  - eapply Qle_trans; [apply Hscale, Hhi|]. apply Qle_lteq. right. field.
  - eapply Qle_trans; [apply Hscale, Hhi|].
    eapply Qle_trans; [apply (Hscale _ (100 + 5 * (1 # 2))%Q); lra|].
    apply Qle_lteq. right. field.
Qed.

Lemma total_arc_length_is_bounded_witness :
  (circumference <= sumQ (arcLength <$> circlesOf (DonutChart oneOpenThousandCompleted None)))%Q
  ∧ (sumQ (arcLength <$> circlesOf (DonutChart oneOpenThousandCompleted None))
     <= (41 # 40) * circumference)%Q.
Proof.
  destruct (total_arc_length_is_bounded oneOpenThousandCompleted None) as (Hlo & _ & Hhi).
  - vm_compute. reflexivity.
  - intros k v Hkv. unfold oneOpenThousandCompleted in Hkv.
    apply lookup_insert_Some in Hkv as [[<- <-]|[_ Hkv]];
      [split; [apply (bool_decide_unpack _); vm_compute; exact I|lia]|].
    apply lookup_singleton_Some in Hkv as [<- <-].
    split; [apply (bool_decide_unpack _); vm_compute; exact I|lia].
  - split; [exact Hlo|exact Hhi].
Defined.

Lemma sumZ_pos (xs : list Z) :
  xs ≠ [] → Forall (λ v, 0 < v) xs → 0 < sumZ xs.
Proof.
  intros Hne Hall. destruct xs as [|v xs]; [done|].
  apply Forall_cons in Hall as [Hv Hall]. unfold sumZ. cbn [foldr].
  assert (0 ≤ foldr Z.add 0 xs); [|lia].
  clear Hne Hv. induction Hall as [|w ws Hw _ IH]; simpl; lia.
Qed.

Lemma renderedCount_pos (data : gmap string Z) :
  renderedCategories data ≠ [] → 0 < renderedCount data.
Proof.
  intros Hne. unfold renderedCount. apply sumZ_pos.
  - by intros ?%fmap_nil_inv.
  - apply Forall_fmap, Forall_forall. intros s Hs.
    apply elem_of_renderedCategories in Hs as (_ & c & Hc & Hpos). simpl. by rewrite Hc.
Qed.

Lemma wellFormed_total_zero (data : gmap string Z) :
  wellFormed data → (total data = 0 ↔ renderedCategories data = []).
Proof.
  intros Hwf. rewrite <- (wellFormed_renderedCount data Hwf). split.
  - intros H0. destruct (renderedCategories data) as [|s l] eqn:E; [done|].
    assert (0 < renderedCount data); [|lia].
    apply renderedCount_pos. by rewrite E.
  - intros Hnil. unfold renderedCount. by rewrite Hnil.
Qed.

Lemma all_zero_iff_nothing_rendered (data : gmap string Z) :
  wellFormed data →
  ((∀ k v, data !! k = Some v → v = 0) ↔ renderedCategories data = []).
Proof.
  intros Hwf. split.
  - intros Hzero. destruct (renderedCategories data) as [|s l] eqn:E; [done|].
    assert (Hs : s ∈ renderedCategories data) by (rewrite E; left).
    apply elem_of_renderedCategories in Hs as (_ & c & Hc & Hpos).
    specialize (Hzero s c Hc). lia.
  - intros Hnil k v Hkv. destruct (Hwf k v Hkv) as [Hk Hv].
    destruct (decide (v = 0)) as [|Hne]; [done|]. exfalso.
    assert (Hin : k ∈ renderedCategories data).
    { apply elem_of_renderedCategories. split; [done|]. exists v. split; [done|lia]. }
    rewrite Hnil in Hin. by apply elem_of_nil in Hin.
Qed.

(** X3. When the counts are well formed and exactly one category has a
    positive count, the chart has exactly one circle: it belongs to that
    category, starts at offset 0 and its arc is the whole circumference;
    the number in the centre is that count. *)
Theorem single_category_fills_the_circle
    (data : gmap string Z) (tooltip : option Tooltip) (s : string) :
  wellFormed data →
  renderedCategories data = [s] →
  ∃ c,
    circlesOf (DonutChart data tooltip) = [c]
    ∧ key c = s
    ∧ (arcLength c == circumference)%Q
    ∧ (strokeDashoffset c == 0)%Q
    ∧ centerTotalOf (DonutChart data tooltip) = data !! s.
Proof.
  intros Hwf Hone.
  assert (Hs : s ∈ renderedCategories data) by (rewrite Hone; left).
  apply elem_of_renderedCategories in Hs as (_ & n & Hn & Hpos).
  assert (HT : total data = n).
  { rewrite <- (wellFormed_renderedCount data Hwf). unfold renderedCount.
    rewrite Hone. simpl. rewrite Hn. unfold sumZ. simpl. lia. }
  exists (circleAt 0 (segmentOf data n s)).
  unfold DonutChart. rewrite HT.
  destruct (n =? 0) eqn:E; [apply Z.eqb_eq in E; lia|]. simpl.
  rewrite segments_eq, Hone. simpl.
  split; [reflexivity|]. split; [reflexivity|]. split; [|split; [|done]].
  - unfold arcLength. simpl. rewrite Hn. simpl.
    assert (Hn0 : ¬ (inject_Z n == 0)%Q).
    { change 0%Q with (inject_Z 0). rewrite inject_Z_injective. lia. }
    assert (Hpct : (inject_Z n / inject_Z n * 100 == 100)%Q) by (field; exact Hn0).
    unfold Math_max, minVisiblePercentage.
    rewrite Q.max_l; [rewrite Hpct; field|]. rewrite Hpct. discriminate.
  - field.
Qed.

Lemma single_category_fills_the_circle_witness :
  ∃ c,
    circlesOf (DonutChart fiveOpen None) = [c]
    ∧ key c = "OPEN"
    ∧ (arcLength c == circumference)%Q.
Proof.
  destruct (single_category_fills_the_circle fiveOpen None "OPEN")
    as (c & Hc & Hkey & Harc & _).
  - intros k v Hkv. unfold fiveOpen in Hkv.
    repeat (apply lookup_insert_Some in Hkv as [[<- <-]|[_ Hkv]];
            [split; [apply (bool_decide_unpack _); vm_compute; exact I|lia]|]).
    apply lookup_singleton_Some in Hkv as [<- <-].
    split; [apply (bool_decide_unpack _); vm_compute; exact I|lia].
  - vm_compute. reflexivity.
  - exists c. split; [exact Hc|]. split; [exact Hkey|exact Harc].
Defined.

(** X4. For well-formed counts the empty state is shown exactly when
    every count is zero; in every other case the chart has at least one
    circle, so a ring without segments is never drawn. *)
Theorem empty_state_iff_all_counts_zero
    (data : gmap string Z) (tooltip : option Tooltip) :
  wellFormed data →
  (isEmptyState (DonutChart data tooltip) = true
   ↔ ∀ k v, data !! k = Some v → v = 0)
  ∧ (isEmptyState (DonutChart data tooltip) = false
     → circlesOf (DonutChart data tooltip) ≠ []).
Proof.
  intros Hwf.
  rewrite (all_zero_iff_nothing_rendered data Hwf), <- (wellFormed_total_zero data Hwf).
  split; [apply empty_state_iff|].
  intros Hchart Hnil.
  assert (HT : total data ≠ 0).
  { intros H0. apply (empty_state_iff data tooltip) in H0. congruence. }
  rewrite DonutChart_circles in Hnil by done.
  assert (Hlen := renderSegments_length 0 (segments data (total data))).
  rewrite Hnil, segments_eq, length_fmap in Hlen.
  apply HT, wellFormed_total_zero; [done|].
  by apply nil_length_inv.
Qed.

Lemma empty_state_iff_all_counts_zero_witness :
  isEmptyState (DonutChart allZero None) = true
  ∧ circlesOf (DonutChart fiveOpen None) ≠ [].
Proof.
  assert (Hwf0 : wellFormed allZero).
  { intros k v Hkv. unfold allZero in Hkv.
    repeat (apply lookup_insert_Some in Hkv as [[<- <-]|[_ Hkv]];
            [split; [apply (bool_decide_unpack _); vm_compute; exact I|lia]|]).
    apply lookup_singleton_Some in Hkv as [<- <-].
    split; [apply (bool_decide_unpack _); vm_compute; exact I|lia]. }
  assert (Hwf5 : wellFormed fiveOpen).
  { intros k v Hkv. unfold fiveOpen in Hkv.
    repeat (apply lookup_insert_Some in Hkv as [[<- <-]|[_ Hkv]];
            [split; [apply (bool_decide_unpack _); vm_compute; exact I|lia]|]).
    apply lookup_singleton_Some in Hkv as [<- <-].
    split; [apply (bool_decide_unpack _); vm_compute; exact I|lia]. }
  split.
  - apply (empty_state_iff_all_counts_zero allZero None Hwf0).
    intros k v Hkv. unfold allZero in Hkv.
    repeat (apply lookup_insert_Some in Hkv as [[<- <-]|[_ Hkv]]; [reflexivity|]).
    by apply lookup_singleton_Some in Hkv as [<- <-].
  - apply (empty_state_iff_all_counts_zero fiveOpen None Hwf5). vm_compute. reflexivity.
Defined.

(** Without well-formedness both halves fail: negative counts can cancel
    into the empty state, and a key outside the five categories can leave
    a ring with a total and no segment. *)
Example cancelling_counts_give_empty_state :
  isEmptyState (DonutChart {[ "OPEN" := 1; "PENDING" := -1 ]} None) = true.
Proof. vm_compute. reflexivity. Qed.

Example unknown_key_alone_gives_bare_ring :
  DonutChart {[ "ARCHIVED" := 3 ]} None = Chart [] 3 None.
Proof. vm_compute. reflexivity. Qed.

(** X5. Every circle is stroked with the colour that the colour table
    gives its category, and no two circles of a chart share a colour. *)
Theorem segment_colours_are_distinct
    (data : gmap string Z) (tooltip : option Tooltip) :
  Forall (λ c, colors !! key c = Some (stroke c)) (circlesOf (DonutChart data tooltip))
  ∧ NoDup (stroke <$> circlesOf (DonutChart data tooltip)).
Proof.
  unfold DonutChart. destruct (total data =? 0); simpl; [split; constructor|].
  split.
  - apply Forall_forall. intros c Hc.
    apply elem_of_renderSegments in Hc as (acc & seg & Hseg & ->). simpl.
    by eapply segments_color_present.
  - assert (Hstroke : ∀ acc segs, stroke <$> renderSegments acc segs = color <$> segs).
    { intros acc segs. revert acc.
      induction segs as [|p segs IH]; intros acc; simpl; [done|]. by rewrite IH. }
    rewrite Hstroke, segments_eq, <- list_fmap_compose.
    eapply (sublist_NoDup _ ((color ∘ segmentOf data (total data)) <$> statusOrder)).
    + apply (bool_decide_unpack _). vm_compute. exact I.
    + apply fmap_sublist, sublist_filter.
Qed.

(** X7. Moving the pointer over a circle makes the chart show a tooltip
    box that names the category of the circle and its count as it stands in
    the data, placed at the pointer position relative to the circle and
    raised by 30; leaving the circle removes the box. *)
Theorem hover_shows_count_of_segment
    (data : gmap string Z) (tooltip : option Tooltip) (c : Circle) (e : MouseEvent) :
  c ∈ circlesOf (DonutChart data tooltip) →
  ∃ n box,
    data !! key c = Some n
    ∧ 0 < n
    ∧ tooltipBoxOf (DonutChart data (mouseMove c e tooltip)) = Some box
    ∧ box_content box = key c +:+ ": " +:+ pretty n +:+ " Tickets"
    ∧ box_top box = (clientY e - rectTop e - 30)%Q
    ∧ box_left box = (clientX e - rectLeft e)%Q
    ∧ tooltipBoxOf (DonutChart data (mouseLeave c (mouseMove c e tooltip))) = None.
Proof.
  unfold DonutChart. destruct (total data =? 0); simpl; [by intros ?%elem_of_nil|].
  intros Hc. apply elem_of_renderSegments in Hc as (acc & seg & Hseg & ->).
  destruct (segments_count_present _ _ _ Hseg) as [Hn Hpos].
  exists (count seg). eexists. split; [exact Hn|]. split; [exact Hpos|].
  simpl. split; [reflexivity|]. done.
Qed.

Lemma hover_shows_count_of_segment_witness :
  ∃ c box,
    circlesOf (DonutChart onePending None) !! 1%nat = Some c
    ∧ tooltipBoxOf (DonutChart onePending (mouseMove c (mkMouseEvent 10 20 4 5) None))
      = Some box
    ∧ box_content box = "PENDING: 1 Tickets".
Proof.
  destruct (circlesOf (DonutChart onePending None) !! 1%nat) as [c|] eqn:Hc;
    [|vm_compute in Hc; discriminate].
  destruct (hover_shows_count_of_segment onePending None c (mkMouseEvent 10 20 4 5))
    as (n & box & Hn & _ & Hbox & Hcontent & _).
  { by eapply list_elem_of_lookup_2. }
  exists c, box. split; [reflexivity|]. split; [exact Hbox|].
  rewrite Hcontent. vm_compute in Hc. injection Hc as <-.
  vm_compute in Hn. injection Hn as <-. reflexivity.
Defined.

(** X8. For well-formed counts with a non-zero total the number in the
    centre of the chart is the sum of the counts of the segments drawn,
    the counts that the tooltips show. *)
Theorem centre_total_is_sum_of_segment_counts
    (data : gmap string Z) (tooltip : option Tooltip) :
  wellFormed data →
  total data ≠ 0 →
  centerTotalOf (DonutChart data tooltip)
  = Some (sumZ (count <$> segments data (total data))).
Proof.
  intros Hwf HT. unfold DonutChart.
  destruct (total data =? 0) eqn:E; [apply Z.eqb_eq in E; done|]. simpl. f_equal.
  rewrite <- (wellFormed_renderedCount data Hwf) at 1. unfold renderedCount.
  by rewrite segments_eq, <- list_fmap_compose.
Qed.

Lemma centre_total_is_sum_of_segment_counts_witness :
  centerTotalOf (DonutChart quarterOpen None) = Some 4.
Proof.
  rewrite (centre_total_is_sum_of_segment_counts quarterOpen None).
  - vm_compute. reflexivity.
  - intros k v Hkv. unfold quarterOpen in Hkv.
    repeat (apply lookup_insert_Some in Hkv as [[<- <-]|[_ Hkv]];
            [split; [apply (bool_decide_unpack _); vm_compute; exact I|lia]|]).
    apply lookup_singleton_Some in Hkv as [<- <-].
    split; [apply (bool_decide_unpack _); vm_compute; exact I|lia].
  - vm_compute. discriminate.
Defined.

(** ** Scaling the counts *)

Lemma total_scale (data : gmap string Z) (k : Z) :
  total (Z.mul k <$> data) = k * total data.
Proof.
  induction data as [|s v data Hs IH] using map_ind.
  - rewrite fmap_empty, total_empty. lia.
  - rewrite fmap_insert, !total_insert, IH; [lia|done|].
    by rewrite lookup_fmap, Hs.
Qed.

Lemma gt0_scale (data : gmap string Z) (k : Z) (s : string) :
  0 < k → gt0 ((Z.mul k <$> data) !! s) = gt0 (data !! s).
Proof.
  intros Hk. rewrite lookup_fmap. destruct (data !! s) as [v|]; simpl; [|done].
  destruct (0 <? v) eqn:E.
  - apply Z.ltb_lt in E. apply Z.ltb_lt. nia.
  - apply Z.ltb_ge in E. apply Z.ltb_ge. nia.
Qed.

(** Two segment entries that are drawn alike. *)
Lemma renderSegments_sameArc (acc acc' : Q) (segs segs' : list Segment) :
  (acc == acc')%Q →
  Forall2 (λ seg seg', status seg = status seg' ∧ color seg = color seg'
                       ∧ (percentage seg == percentage seg')%Q) segs segs' →
  Forall2 sameArc (renderSegments acc segs) (renderSegments acc' segs').
Proof.
  intros Hacc Hsegs. revert acc acc' Hacc.
  induction Hsegs as [|seg seg' segs segs' (Hst & Hcol & Hpct) _ IH]; intros acc acc' Hacc.
  - constructor.
  - cbn [renderSegments]. constructor.
    + unfold sameArc, arcLength. simpl. split; [done|]. split; [done|].
      assert (Hmax : (Math_max (percentage seg) minVisiblePercentage
                      == Math_max (percentage seg') minVisiblePercentage)%Q)
        by (apply Q.max_compat; [done|reflexivity]).
      split; [by rewrite Hmax|by rewrite Hacc].
    + apply IH. by rewrite Hacc, Hpct.
Qed.

Lemma segments_scale (data : gmap string Z) (k T : Z) (l : list string) :
  0 < k → T ≠ 0 →
  Forall2 (λ seg seg', status seg = status seg' ∧ color seg = color seg'
                       ∧ (percentage seg == percentage seg')%Q)
          (segmentOf (Z.mul k <$> data) (k * T)
             <$> filter (λ status, gt0 ((Z.mul k <$> data) !! status) = true) l)
          (segmentOf data T <$> filter (λ status, gt0 (data !! status) = true) l).
Proof.
  intros Hk HT. induction l as [|s l IH]; [constructor|].
  assert (Hs := gt0_scale data k s Hk).
  destruct (gt0 (data !! s)) eqn:E.
  - rewrite (filter_cons_True (λ status, gt0 ((Z.mul k <$> data) !! status) = true))
      by done.
    rewrite (filter_cons_True (λ status, gt0 (data !! status) = true)) by done.
    rewrite !fmap_cons. constructor; [|exact IH].
    split; [reflexivity|]. split; [reflexivity|]. simpl.
    rewrite lookup_fmap. destruct (data !! s) as [v|]; simpl.
    + rewrite !inject_Z_mult. field. split.
      * change 0%Q with (inject_Z 0). by rewrite inject_Z_injective.
      * change 0%Q with (inject_Z 0). rewrite inject_Z_injective. lia.
    + rewrite !inject_Z_mult. field. split.
      * change 0%Q with (inject_Z 0). by rewrite inject_Z_injective.
      * change 0%Q with (inject_Z 0). rewrite inject_Z_injective. lia.
  - rewrite (filter_cons_False (λ status, gt0 ((Z.mul k <$> data) !! status) = true))
      by (rewrite Hs; discriminate).
    rewrite (filter_cons_False (λ status, gt0 (data !! status) = true))
      by (rewrite E; discriminate).
    exact IH.
Qed.

(** X6. The chart shows proportions only: multiplying every count by the
    same positive factor leaves the choice between empty state and chart,
    the categories drawn, their colours, their arc lengths and their
    offsets as they were. *)
Theorem chart_depends_on_proportions_only
    (data : gmap string Z) (k : Z) (tooltip : option Tooltip) :
  0 < k →
  isEmptyState (DonutChart (Z.mul k <$> data) tooltip)
  = isEmptyState (DonutChart data tooltip)
  ∧ Forall2 sameArc (circlesOf (DonutChart (Z.mul k <$> data) tooltip))
                    (circlesOf (DonutChart data tooltip)).
Proof.
  intros Hk. unfold DonutChart. rewrite total_scale.
  destruct (total data =? 0) eqn:E.
  - apply Z.eqb_eq in E. rewrite E, Z.mul_0_r. simpl. split; [done|constructor].
  - apply Z.eqb_neq in E.
    destruct (k * total data =? 0) eqn:E'; [apply Z.eqb_eq in E'; nia|].
    simpl. split; [done|].
    apply renderSegments_sameArc; [reflexivity|].
    rewrite !segments_eq. by apply segments_scale.
Qed.

Lemma chart_depends_on_proportions_only_witness :
  Forall2 sameArc (circlesOf (DonutChart (Z.mul 7 <$> quarterOpen) None))
                  (circlesOf (DonutChart quarterOpen None)).
Proof.
  apply (chart_depends_on_proportions_only quarterOpen 7 None). lia.
Defined.

(** * The dashboard page around the chart *)


Lemma cards_per_status (st : PageState) (tooltip : option Tooltip) (s : string) :
  s ∈ statusOrder → cardOf (render st tooltip) s = [statusCard st s].
Proof.
  intros Hs. unfold statusOrder in Hs.
  repeat (apply elem_of_cons in Hs as [->|Hs]; [reflexivity|]).
  by apply elem_of_nil in Hs.
Qed.

(** X10. Once loaded, the chart and the cards tell the same story: for
    every circle of the chart there is exactly one card with its category,
    the tooltip of the circle is the category followed by the text of that
    card, and clicking the card makes the same calls as clicking the
    circle. *)
Theorem card_and_segment_agree
    (st : PageState) (tooltip : option Tooltip) (props : DashboardHomeProps)
    (c : Circle) :
  loading st = false →
  c ∈ circlesOf (DonutChart (ticketStatusData st) tooltip) →
  ∃ card,
    cardOf (render st tooltip) (key c) = [card]
    ∧ onMouseMove c = Some (SetTooltipText (key c +:+ ": " +:+ card_text card))
    ∧ clickCard props card = click props c.
Proof.
  intros Hloaded Hc. unfold DonutChart in Hc.
  destruct (total (ticketStatusData st) =? 0); simpl in Hc; [by apply elem_of_nil in Hc|].
  apply elem_of_renderSegments in Hc as (acc & seg & Hseg & ->).
  destruct (segments_count_present _ _ _ Hseg) as [Hn _].
  assert (Hin : status seg ∈ statusOrder).
  { assert (Hst : status seg ∈ status <$> segments (ticketStatusData st)
                                            (total (ticketStatusData st)))
      by by apply list_elem_of_fmap_2.
    rewrite segments_keys in Hst. by apply elem_of_renderedCategories in Hst as [? _]. }
  exists (statusCard st (status seg)). simpl.
  split; [by apply cards_per_status|].
  unfold statusCard. simpl. rewrite Hloaded, Hn. split; reflexivity.
Qed.

Lemma card_and_segment_agree_witness :
  ∃ c card,
    circlesOf (DonutChart onePending None) !! 1%nat = Some c
    ∧ cardOf (render (mkPageState onePending false) None) "PENDING" = [card]
    ∧ card_text card = "1 Tickets"
    ∧ clickCard (mkProps true) card = click (mkProps true) c.
Proof.
  destruct (circlesOf (DonutChart onePending None) !! 1%nat) as [c|] eqn:Hc;
    [|vm_compute in Hc; discriminate].
  destruct (card_and_segment_agree (mkPageState onePending false) None (mkProps true) c)
    as (card & Hcard & _ & Hclick).
  { reflexivity. }
  { by eapply list_elem_of_lookup_2. }
  exists c, card. split; [reflexivity|].
  vm_compute in Hc. injection Hc as <-.
  split; [exact Hcard|]. split; [|exact Hclick].
  vm_compute in Hcard. by injection Hcard as <-.
Defined.

(** X11. Every status of the fixed order has exactly one card, whatever
    its count and also while the page is loading; the card carries the
    label of the status, and a click on it sends the router to the filtered
    ticket list and calls the host's callback, when there is one, exactly
    once with the status. *)
Theorem card_click_notifies_host_once
    (st : PageState) (tooltip : option Tooltip) (props : DashboardHomeProps)
    (s : string) :
  s ∈ statusOrder →
  hasOnNavigateToTickets props = true →
  ∃ card,
    cardOf (render st tooltip) s = [card]
    ∧ card_title card = getStatusLabel s
    ∧ card_title card ≠ s
    ∧ clickCard props card
      = [navigate ("/home/ticket/show?status=" +:+ s); onNavigateToTickets s]
    ∧ filter (λ call, isHostNotification call = true) (clickCard props card)
      = [onNavigateToTickets s].
Proof.
  intros Hs Hcb. exists (statusCard st s).
  split; [by apply cards_per_status|]. split; [reflexivity|].
  unfold clickCard, handleCardClick. simpl. rewrite Hcb.
  split; [|split; reflexivity].
  unfold statusOrder in Hs.
  repeat (apply elem_of_cons in Hs as [->|Hs]; [discriminate|]).
  by apply elem_of_nil in Hs.
Qed.

Lemma card_click_notifies_host_once_witness :
  ∃ card,
    cardOf (render initialState None) "CLOSED" = [card]
    ∧ card_title card = "Closed"
    ∧ clickCard (mkProps true) card
      = [navigate "/home/ticket/show?status=CLOSED"; onNavigateToTickets "CLOSED"].
Proof.
  destruct (card_click_notifies_host_once initialState None (mkProps true) "CLOSED")
    as (card & Hcard & Htitle & _ & Hclick & _).
  - apply (bool_decide_unpack _). vm_compute. exact I.
  - reflexivity.
  - exists card. split; [exact Hcard|]. split; [exact Htitle|exact Hclick].
Defined.

(** X12. A response with code 1 replaces the counts as a whole, so a
    category that the response leaves out has no count afterwards: its card
    shows an empty badge and the text "undefined Tickets", and the chart has
    no circle for it; a category that the response carries shows that
    count. *)
Theorem partial_response_shows_undefined
    (API_BASE : string) (code : Z) (message : option string) (data : gmap string Z)
    (st : PageState) (tooltip : option Tooltip) (s : string) :
  code = 1 →
  s ∈ statusOrder →
  ∃ card,
    cardOf (render (fetchTicketStatusCounts API_BASE (resolved code message data) st).1
                   tooltip) s = [card]
    ∧ card_text card
      = match data !! s with
        | Some n => pretty n +:+ " Tickets"
        | None => "undefined Tickets"
        end
    ∧ card_badge card = match data !! s with Some n => pretty n | None => "" end
    ∧ (data !! s = None →
       Forall (λ c, key c ≠ s) (circlesOf (DonutChart data tooltip))).
Proof.
  intros -> Hs. simpl.
  exists (statusCard {| ticketStatusData := data; loading := false |} s).
  split; [by apply cards_per_status|].
  unfold statusCard. simpl. split; [by destruct (data !! s)|]. split; [done|].
  intros Hnone. apply Forall_forall. intros c Hc Hkey.
  unfold DonutChart in Hc.
  destruct (total data =? 0); simpl in Hc; [by apply elem_of_nil in Hc|].
  apply elem_of_renderSegments in Hc as (acc & seg & Hseg & ->). simpl in Hkey.
  destruct (segments_count_present _ _ _ Hseg) as [Hn _]. congruence.
Qed.

Lemma partial_response_shows_undefined_witness :
  ∃ card,
    cardOf (render (fetchTicketStatusCounts "https://crm.test/api"
                      (resolved 1 None onlyOpen) initialState).1 None) "CLOSED"
    = [card]
    ∧ card_text card = "undefined Tickets".
Proof.
  destruct (partial_response_shows_undefined "https://crm.test/api" 1 None onlyOpen
              initialState None "CLOSED")
    as (card & Hcard & Htext & _).
  - reflexivity.
  - apply (bool_decide_unpack _). vm_compute. exact I.
  - exists card. split; [exact Hcard|]. rewrite Htext. reflexivity.
Defined.

(** * The company page beyond the permission check *)

Lemma prefix_spec (p s : string) :
  String.prefix p s = true ↔ ∃ post, s = p +:+ post.
Proof.
  revert s. induction p as [|a p IH]; intros [|b s]; simpl.
  - split; [intros _; by exists ""|done].
  - split; [intros _; by exists (String b s)|done].
  - split; [done|by intros [post ?]].
  - destruct (Ascii.ascii_dec a b) as [->|Hne].
    + rewrite IH. split; intros [post Hpost]; exists post; [by rewrite Hpost|].
      by injection Hpost.
    + split; [done|]. intros [post Hpost]. injection Hpost as ? ?. by subst.
Qed.

Lemma includes_spec (hay needle : string) :
  ShowCompanyPage.includes hay needle = true ↔ contains hay needle.
Proof.
  unfold contains. induction hay as [|c hay IH]; cbn [ShowCompanyPage.includes].
  - rewrite orb_false_r, prefix_spec. split.
    + intros [post Hpost]. by exists "", post.
    + intros (pre & post & Heq). destruct pre; [by exists post|discriminate].
  - rewrite orb_true_iff, prefix_spec, IH. split.
    + intros [[post Hpost]|(pre & post & Heq)].
      * by exists "", post.
      * exists (String c pre), post. simpl. by rewrite Heq.
    + intros (pre & post & Heq). destruct pre as [|c' pre]; simpl in Heq.
      * left. by exists post.
      * right. injection Heq as -> Heq. by exists pre, post.
Qed.

Lemma includes_empty (hay : string) : ShowCompanyPage.includes hay "" = true.
Proof. apply includes_spec. by exists "", hay. Qed.

Section CompanyTable.

Import ShowCompanyPage.

Variable toLowerCase : string → string.

(** X13. The search box keeps exactly the companies whose name or e-mail
    contains the search text when both sides are lower-cased, or whose
    phone contains it as typed; the companies kept stay in the order of the
    list, and an empty search keeps them all. *)
Theorem search_keeps_exactly_the_matches (st : State) :
  (∀ c, c ∈ filteredCompanies toLowerCase st
        ↔ c ∈ companies st
          ∧ (contains (toLowerCase (name c)) (toLowerCase (search st))
             ∨ contains (toLowerCase (email c)) (toLowerCase (search st))
             ∨ contains (phone c) (search st)))
  ∧ filteredCompanies toLowerCase st `sublist_of` companies st
  ∧ (search st = "" → filteredCompanies toLowerCase st = companies st).
Proof.
  split; [|split].
  - intros c. unfold filteredCompanies. rewrite list_elem_of_filter.
    rewrite !orb_true_iff, !includes_spec. tauto.
  - apply sublist_filter.
  - intros Hempty. unfold filteredCompanies. rewrite Hempty.
    induction (companies st) as [|c l IH]; [reflexivity|].
    rewrite filter_cons_True; [by rewrite IH|].
    rewrite includes_empty. apply orb_true_r.
Qed.

Lemma imap_tableRow_keys (st : State) (l : list Company) (start : nat) :
  row_key <$> imap (λ idx, tableRow st (start + idx)) l = id <$> l
  ∧ row_index <$> imap (λ idx, tableRow st (start + idx)) l
    = (λ n, Z.of_nat n + 1) <$> seq start (length l)
  ∧ row_name <$> imap (λ idx, tableRow st (start + idx)) l = name <$> l.
Proof.
  revert start. induction l as [|c l IH]; intros start; [done|].
  cbn [imap length seq]. rewrite !fmap_cons.
  assert (Hshift : imap ((λ idx, tableRow st (start + idx)) ∘ S) l
                   = imap (λ idx, tableRow st (S start + idx)) l).
  { apply imap_ext. intros i x _. simpl. f_equal. lia. }
  rewrite Hshift. destruct (IH (S start)) as (-> & -> & ->).
  simpl. rewrite Nat.add_0_r. done.
Qed.

(** X14. The table body has one row per company kept by the search, in
    the order of the list, keyed by the company identifier and numbered 1,
    2, 3, ... by position; when no company is kept it is the single cell
    "No companies found", which spans exactly as many columns as the header
    has. *)
Theorem table_lists_matches_in_order (st : State) :
  match tableBody toLowerCase st with
  | NoCompaniesFound colSpan =>
      filteredCompanies toLowerCase st = []
      ∧ colSpan = Z.of_nat (length (tableHeader st))
  | Rows rows =>
      filteredCompanies toLowerCase st ≠ []
      ∧ row_key <$> rows = id <$> filteredCompanies toLowerCase st
      ∧ row_name <$> rows = name <$> filteredCompanies toLowerCase st
      ∧ row_index <$> rows
        = Z.of_nat <$> seq 1 (length (filteredCompanies toLowerCase st))
  end.
Proof.
  unfold tableBody.
  destruct (filteredCompanies toLowerCase st) as [|c l] eqn:E.
  - simpl. split; [done|]. unfold tableHeader. by destruct (isSuperAdmin st).
  - cbn [length Nat.eqb]. split; [done|].
    destruct (imap_tableRow_keys st (c :: l) 0) as (Hkeys & Hidx & Hnames).
    split; [exact Hkeys|]. split; [exact Hnames|].
    etrans; [exact Hidx|].
    rewrite <- (fmap_S_seq 0), <- list_fmap_compose.
    apply list_fmap_ext. intros i n _. simpl. lia.
Qed.

End CompanyTable.

Lemma search_keeps_exactly_the_matches_witness :
  ShowCompanyPage.filteredCompanies (λ s, s) (twoCompanies 2 "") = [acme; globex]
  ∧ ShowCompanyPage.filteredCompanies (λ s, s) (twoCompanies 2 "0199") = [globex].
Proof.
  split.
  - apply (search_keeps_exactly_the_matches (λ s, s) (twoCompanies 2 "")). reflexivity.
  - vm_compute. reflexivity.
Defined.

Section CompanyHandlers.

Import ShowCompanyPage.

Variable API_BASE : string.
Variable toLowerCase : string → string.

Lemma orElse_nonempty (m : option string) (fallback : string) :
  fallback ≠ "" → orElse m fallback ≠ "".
Proof.
  intros Hf. unfold orElse. destruct m as [s|]; [|done]. by destruct (decide (s = "")).
Qed.

(** X15. When a SuperAdmin confirms the deletion of the selected company,
    one DELETE request for its identifier goes out and, whatever the
    answer, the dialog is closed and the selection cleared.  Only an answer
    with code 1 changes the list: then exactly the companies with that
    identifier are gone and the others stay, in order; any other answer
    leaves the list as it was and shows one error. *)
Theorem superadmin_delete_closes_dialog (st : State) (res : Response) (c : Company) :
  isSuperAdmin st = true →
  selectedCompany st = Some c →
  deleteModal (handleDelete API_BASE res st).1 = false
  ∧ selectedCompany (handleDelete API_BASE res st).1 = None
  ∧ editModal (handleDelete API_BASE res st).1 = editModal st
  ∧ companies (handleDelete API_BASE res st).1
    = (if answeredWithCode1 res
       then filter (λ x, id x ≠ id c) (companies st)
       else companies st)
  ∧ ∃ outcome,
      (handleDelete API_BASE res st).2
      = [axios_delete (API_BASE +:+ "/company/delete/" +:+ pretty (id c)); outcome]
      ∧ if answeredWithCode1 res
        then outcome = toast_success "Company deleted successfully!"
             ∧ Forall (λ x, id x ≠ id c) (companies (handleDelete API_BASE res st).1)
             ∧ ∀ x, x ∈ companies st → id x ≠ id c →
                    x ∈ companies (handleDelete API_BASE res st).1
        else ∃ message, outcome = toast_error message ∧ message ≠ "".
Proof.
  intros Hadmin Hsel. unfold handleDelete. rewrite Hsel, Hadmin. simpl.
  destruct res as [code message data|message]; simpl.
  - destruct (code =? 1); simpl.
    + repeat (split; [reflexivity|]). eexists. split; [reflexivity|].
      split; [reflexivity|]. split.
      * apply Forall_forall. intros x Hx. by apply list_elem_of_filter in Hx as [? _].
      * intros x Hx Hne. by apply list_elem_of_filter.
    + repeat (split; [reflexivity|]). eexists. split; [reflexivity|].
      eexists. split; [reflexivity|]. by apply orElse_nonempty.
  - repeat (split; [reflexivity|]). eexists. split; [reflexivity|].
    eexists. split; [reflexivity|]. by apply orElse_nonempty.
Qed.

(** X16. When a SuperAdmin submits the edit dialog, one PUT request with
    the selected company as edited goes out.  Unless the answer has code 1
    nothing changes (the dialog stays open, the list keeps its rows) and
    one error is shown.  After an answer with code 1 the dialog is closed,
    the list is fetched again and becomes what the server returns: the
    edited values reach the table only through that second answer. *)
Theorem superadmin_update_refetches (st : State) (res refetch : Response) (c : Company) :
  isSuperAdmin st = true →
  selectedCompany st = Some c →
  ∃ later,
    (handleUpdate API_BASE res refetch st).2
    = axios_put (API_BASE +:+ "/company/update") c :: later
    ∧ if answeredWithCode1 res
      then editModal (handleUpdate API_BASE res refetch st).1 = false
           ∧ loading (handleUpdate API_BASE res refetch st).1 = false
           ∧ selectedCompany (handleUpdate API_BASE res refetch st).1 = Some c
           ∧ companies (handleUpdate API_BASE res refetch st).1
             = (if answeredWithCode1 refetch then listOf refetch else companies st)
           ∧ ∃ outcome,
               later = toast_success "Company updated successfully!"
                         :: axios_get (API_BASE +:+ "/company/get-all") :: outcome
               ∧ if answeredWithCode1 refetch then outcome = []
                 else ∃ message, outcome = [toast_error message]
      else (handleUpdate API_BASE res refetch st).1 = st
           ∧ ∃ message, later = [toast_error message] ∧ message ≠ "".
Proof.
  intros Hadmin Hsel. unfold handleUpdate. rewrite Hsel, Hadmin. simpl.
  destruct res as [code message data|message]; simpl.
  - destruct (code =? 1); simpl.
    + unfold fetchCompanies.
      destruct refetch as [code' message' data'|message']; simpl.
      * destruct (code' =? 1); simpl; eexists; (split; [reflexivity|]);
          repeat (split; [reflexivity|]); eexists; (split; [reflexivity|]);
          [reflexivity|by eexists].
      * eexists. split; [reflexivity|]. repeat (split; [reflexivity|]).
        eexists. split; [reflexivity|]. by eexists.
    + eexists. split; [reflexivity|]. split; [reflexivity|].
      eexists. split; [reflexivity|]. by apply orElse_nonempty.
  - eexists. split; [reflexivity|]. split; [reflexivity|].
    eexists. split; [reflexivity|]. by apply orElse_nonempty.
Qed.

(** X17. When a SuperAdmin opens the edit dialog for a row and changes a
    field, the dialog shows the company with the new value while the table
    still shows the rows as fetched: typing in the dialog never touches the
    list. *)
Theorem editing_changes_dialog_not_table
    (st : State) (c : Company) (f : Field) (value : string) :
  isSuperAdmin st = true →
  loading st = false →
  (handleEditClick c st).2 = []
  ∧ companies (changeField f value (handleEditClick c st).1) = companies st
  ∧ render toLowerCase (changeField f value (handleEditClick c st).1)
    = Page (tableHeader st) (tableBody toLowerCase st)
           (Some (withField f value c))
           (if deleteModal st then Some (withField f value c) else None).
Proof.
  intros Hadmin Hloaded. unfold handleEditClick. rewrite Hadmin. simpl.
  split; [reflexivity|]. split; [reflexivity|].
  unfold render, changeField. simpl. rewrite Hloaded. reflexivity.
Qed.

(** X18. The refresh button announces success without waiting for the
    answer: the GET request is followed at once by the toast "Companies
    refreshed!", also when the request then fails, in which case the list
    keeps its rows and an error toast comes after; in every case the page
    has stopped loading. *)
Theorem refresh_announces_success_regardless (st : State) (res : Response) :
  loading (handleRefresh API_BASE res st).1 = false
  ∧ companies (handleRefresh API_BASE res st).1
    = (if answeredWithCode1 res then listOf res else companies st)
  ∧ ∃ outcome,
      (handleRefresh API_BASE res st).2
      = axios_get (API_BASE +:+ "/company/get-all")
          :: toast_success "Companies refreshed!" :: outcome
      ∧ if answeredWithCode1 res then outcome = []
        else ∃ message, outcome = [toast_error message] ∧ message ≠ "".
Proof.
  unfold handleRefresh, fetchCompanies.
  destruct res as [code message data|message]; simpl.
  - destruct (code =? 1); simpl; (split; [reflexivity|]); (split; [reflexivity|]);
      eexists; (split; [reflexivity|]); [reflexivity|].
    eexists. split; [reflexivity|]. by apply orElse_nonempty.
  - split; [reflexivity|]. split; [reflexivity|]. eexists. split; [reflexivity|].
    eexists. split; [reflexivity|]. by apply orElse_nonempty.
Qed.

End CompanyHandlers.

Lemma superadmin_delete_closes_dialog_witness :
  ShowCompanyPage.companies
    (ShowCompanyPage.handleDelete "https://crm.test/api"
       (ShowCompanyPage.rejected (Some "Server down")) (pageOf 1)).1 = [acme]
  ∧ ShowCompanyPage.deleteModal
      (ShowCompanyPage.handleDelete "https://crm.test/api"
         (ShowCompanyPage.rejected (Some "Server down")) (pageOf 1)).1 = false
  ∧ ShowCompanyPage.selectedCompany
      (ShowCompanyPage.handleDelete "https://crm.test/api"
         (ShowCompanyPage.rejected (Some "Server down")) (pageOf 1)).1 = None.
Proof.
  destruct (superadmin_delete_closes_dialog "https://crm.test/api" (pageOf 1)
              (ShowCompanyPage.rejected (Some "Server down")) acme)
    as (Hmodal & Hsel & _ & Hlist & _); [reflexivity|reflexivity|].
  split; [exact Hlist|]. split; [exact Hmodal|exact Hsel].
Defined.

Lemma superadmin_update_refetches_witness :
  ShowCompanyPage.companies
    (ShowCompanyPage.handleUpdate "https://crm.test/api"
       (ShowCompanyPage.resolved 1 None None)
       (ShowCompanyPage.resolved 1 None (Some [globex])) (pageOf 1)).1 = [globex].
Proof.
  destruct (superadmin_update_refetches "https://crm.test/api" (pageOf 1)
              (ShowCompanyPage.resolved 1 None None)
              (ShowCompanyPage.resolved 1 None (Some [globex])) acme)
    as (later & _ & Hsuccess); [reflexivity|reflexivity|].
  simpl in Hsuccess. destruct Hsuccess as (_ & _ & _ & Hlist & _). exact Hlist.
Defined.

Lemma editing_changes_dialog_not_table_witness :
  ShowCompanyPage.companies
    (ShowCompanyPage.changeField ShowCompanyPage.NameField "Acme Ltd"
       (ShowCompanyPage.handleEditClick acme (twoCompanies 1 "")).1)
  = [acme; globex].
Proof.
  apply (editing_changes_dialog_not_table (λ s, s) (twoCompanies 1 "") acme
           ShowCompanyPage.NameField "Acme Ltd"); reflexivity.
Defined.

Section CompanySessions.

Import ShowCompanyPage.

Variable API_BASE : string.

Ltac no_writes :=
  repeat (apply List.Forall_cons; [reflexivity|]); apply List.Forall_nil.

Lemma fetchCompanies_userData (res : Response) (st : State) :
  userData (fetchCompanies API_BASE res st).1 = userData st
  ∧ selectedCompany (fetchCompanies API_BASE res st).1 = selectedCompany st
  ∧ Forall (λ call, isWrite call = false) (fetchCompanies API_BASE res st).2.
Proof.
  unfold fetchCompanies. destruct res as [code message data|message];
    [destruct (code =? 1)|]; simpl; (split; [reflexivity|]); (split; [reflexivity|]);
    no_writes.
Qed.

Lemma step_userData (ev : Event) (st : State) :
  userData (step API_BASE ev st).1 = userData st.
Proof.
  destruct ev as [c|c|res refetch|res|res|value| | |f value]; simpl;
    try reflexivity.
  - unfold handleEditClick. by destruct (negb (isSuperAdmin st)).
  - unfold handleDeleteClick. by destruct (negb (isSuperAdmin st)).
  - unfold handleUpdate. destruct (selectedCompany st); [|done].
    destruct (negb (isSuperAdmin st)); [done|].
    destruct res as [code message data|message]; [|done].
    destruct (code =? 1); [|done].
    pose proof (fetchCompanies_userData refetch
                  (mkState (companies st) (loading st) (search st) (Some c)
                           false (deleteModal st) (userData st))) as (Hu & _).
    destruct (fetchCompanies _ _ _) as [st' calls]. exact Hu.
  - unfold handleDelete. destruct (selectedCompany st); [|done].
    destruct (negb (isSuperAdmin st)); [done|].
    destruct res as [code message data|message]; [by destruct (code =? 1)|done].
  - unfold handleRefresh.
    pose proof (fetchCompanies_userData res st) as (Hu & _).
    destruct (fetchCompanies _ _ _) as [st' calls]. exact Hu.
  - unfold changeField. by destruct (selectedCompany st).
Qed.

Lemma run_cons (ev : Event) (evs : list Event) (st : State) :
  run API_BASE (ev :: evs) st
  = ((run API_BASE evs (step API_BASE ev st).1).1,
     (step API_BASE ev st).2 ++ (run API_BASE evs (step API_BASE ev st).1).2).
Proof.
  cbn [run]. destruct (step API_BASE ev st) as [st1 calls1]. simpl.
  by destruct (run API_BASE evs st1) as [st2 calls2].
Qed.

Lemma isSuperAdmin_userData (st st' : State) :
  userData st' = userData st → isSuperAdmin st' = isSuperAdmin st.
Proof. unfold isSuperAdmin. by intros ->. Qed.

(** X19. Nothing a user does on the page changes who the page takes the
    user to be: after any sequence of clicks, edits, searches and
    refreshes, with any answers from the server, the user record is the one
    the page started with, and so are the SuperAdmin test and the columns
    of the table header. *)
Theorem interaction_never_changes_permission (evs : list Event) (st : State) :
  userData (run API_BASE evs st).1 = userData st
  ∧ isSuperAdmin (run API_BASE evs st).1 = isSuperAdmin st
  ∧ tableHeader (run API_BASE evs st).1 = tableHeader st.
Proof.
  assert (Hu : userData (run API_BASE evs st).1 = userData st).
  { revert st. induction evs as [|ev evs IH]; intros st; [reflexivity|].
    rewrite run_cons. simpl. rewrite IH. apply step_userData. }
  split; [exact Hu|].
  assert (Ha := isSuperAdmin_userData _ _ Hu).
  split; [exact Ha|]. unfold tableHeader. by rewrite Ha.
Qed.

Lemma step_non_superadmin (ev : Event) (st : State) :
  isSuperAdmin st = false →
  Forall (λ call, isWrite call = false) (step API_BASE ev st).2
  ∧ (selectedCompany st = None → selectedCompany (step API_BASE ev st).1 = None).
Proof.
  intros Hna.
  destruct ev as [c|c|res refetch|res|res|value| | |f value]; simpl.
  - unfold handleEditClick. rewrite Hna. simpl. split; [no_writes|done].
  - unfold handleDeleteClick. rewrite Hna. simpl. split; [no_writes|done].
  - unfold handleUpdate. rewrite Hna.
    destruct (selectedCompany st) eqn:E; simpl; (split; [no_writes|done]).
  - unfold handleDelete. rewrite Hna.
    destruct (selectedCompany st) eqn:E; simpl; (split; [no_writes|done]).
  - unfold handleRefresh.
    pose proof (fetchCompanies_userData res st) as (_ & Hsel & Hw).
    destruct (fetchCompanies _ _ _) as [st' calls]. simpl in *. split.
    + apply Forall_app. split; [by apply Forall_take|].
      constructor; [reflexivity|by apply Forall_drop].
    + by rewrite Hsel.
  - split; [constructor|done].
  - split; [constructor|done].
  - split; [constructor|done].
  - split; [constructor|]. unfold changeField. intros Hnone. by rewrite Hnone.
Qed.

(** X20. A user who is not a SuperAdmin cannot make the page write:
    whatever sequence of handlers runs, with whatever answers, no PUT and no
    DELETE request is ever sent.  If no company is selected at the start
    (as when the page mounts), none is ever selected, so neither dialog is
    ever on screen. *)
Theorem non_superadmin_never_writes (evs : list Event) (st : State) :
  isSuperAdmin st = false →
  Forall (λ call, isWrite call = false) (run API_BASE evs st).2
  ∧ (selectedCompany st = None →
     selectedCompany (run API_BASE evs st).1 = None
     ∧ ∀ toLowerCase header body editDialog deleteDialog,
         render toLowerCase (run API_BASE evs st).1
         = Page header body editDialog deleteDialog →
         editDialog = None ∧ deleteDialog = None).
Proof.
  intros Hna.
  assert (Hrun : Forall (λ call, isWrite call = false) (run API_BASE evs st).2
                 ∧ (selectedCompany st = None →
                    selectedCompany (run API_BASE evs st).1 = None)).
  { revert st Hna. induction evs as [|ev evs IH]; intros st Hna.
    - split; [constructor|done].
    - rewrite run_cons. simpl.
      destruct (step_non_superadmin ev st Hna) as [Hw Hsel].
      assert (Hna' : isSuperAdmin (step API_BASE ev st).1 = false).
      { rewrite <- Hna. apply isSuperAdmin_userData, step_userData. }
      destruct (IH _ Hna') as [Hw' Hsel']. split.
      + apply Forall_app. by split.
      + intros Hnone. by apply Hsel', Hsel. }
  destruct Hrun as [Hw Hsel]. split; [exact Hw|].
  intros Hnone. specialize (Hsel Hnone). split; [exact Hsel|].
  intros toLowerCase header body editDialog deleteDialog. unfold render.
  rewrite Hsel. destruct (loading _); [discriminate|].
  intros [= _ _ <- <-]. split.
  - by destruct (editModal _).
  - by destruct (deleteModal _).
Qed.

End CompanySessions.

Lemma non_superadmin_never_writes_witness :
  Forall (λ call, isWrite call = false)
    (ShowCompanyPage.run "https://crm.test/api"
       [ShowCompanyPage.ClickDelete acme;
        ShowCompanyPage.ClickConfirmDelete (ShowCompanyPage.resolved 1 None None);
        ShowCompanyPage.ClickRefresh (ShowCompanyPage.resolved 1 None (Some [globex]))]
       (twoCompanies 2 "")).2.
Proof.
  apply (non_superadmin_never_writes "https://crm.test/api"). reflexivity.
Defined.

(** The same three steps by a SuperAdmin do send the DELETE request. *)
Example superadmin_session_writes :
  filter (λ call, isWrite call = true)
    (ShowCompanyPage.run "https://crm.test/api"
       [ShowCompanyPage.ClickDelete acme;
        ShowCompanyPage.ClickConfirmDelete (ShowCompanyPage.resolved 1 None None);
        ShowCompanyPage.ClickRefresh (ShowCompanyPage.resolved 1 None (Some [globex]))]
       (twoCompanies 1 "")).2
  = [ShowCompanyPage.axios_delete "https://crm.test/api/company/delete/7"].
Proof. vm_compute. reflexivity. Qed.

(** * Finding the current user *)

Lemma substring_all (s : string) : String.substring 0 (String.length s) s = s.
Proof. induction s as [|c s IH]; simpl; [reflexivity|]. by rewrite IH. Qed.

Lemma replace_absent (s pattern replacement : string) :
  ¬ contains s pattern → ShowCompanyPage.replace s pattern replacement = s.
Proof.
  induction s as [|c s IH]; intros Habsent; cbn [ShowCompanyPage.replace].
  - destruct (String.prefix pattern "") eqn:E; [|reflexivity].
    exfalso. apply Habsent. apply prefix_spec in E as [post Hpost].
    by exists "", post.
  - destruct (String.prefix pattern (String c s)) eqn:E.
    + exfalso. apply Habsent. apply prefix_spec in E as [post Hpost].
      by exists "", post.
    + f_equal. apply IH. intros (pre & post & Heq). apply Habsent.
      exists (String c pre), post. simpl. by rewrite Heq.
Qed.

Lemma replace_unfold (s pattern replacement : string) :
  ShowCompanyPage.replace s pattern replacement
  = if String.prefix pattern s then
      replacement +:+ String.substring (String.length pattern)
                                        (String.length s - String.length pattern) s
    else
      match s with
      | EmptyString => EmptyString
      | String c rest => String c (ShowCompanyPage.replace rest pattern replacement)
      end.
Proof. by destruct s. Qed.

Lemma substring_after_prefix (p t : string) :
  String.substring (String.length p) (String.length (p +:+ t) - String.length p) (p +:+ t)
  = t.
Proof.
  induction p as [|a p IH].
  - change ("" +:+ t) with t. cbn [String.length].
    rewrite Nat.sub_0_r. apply substring_all.
  - change (String a p +:+ t) with (String a (p +:+ t)).
    cbn [String.length String.substring Nat.sub]. exact IH.
Qed.

Lemma replace_prefix (p t replacement : string) :
  ShowCompanyPage.replace (p +:+ t) p replacement = replacement +:+ t.
Proof.
  rewrite replace_unfold.
  assert (Hp : String.prefix p (p +:+ t) = true) by (apply prefix_spec; by exists t).
  by rewrite Hp, substring_after_prefix.
Qed.

Lemma replace_bearer_prefix (t : string) :
  ShowCompanyPage.replace ("Bearer " +:+ t) "Bearer " "" = t.
Proof. apply (replace_prefix "Bearer " t ""). Qed.

Section CurrentUser.

Import ShowCompanyPage.

Variable API_BASE : string.
Variable decodePayload : string → option TokenPayload.
Variable parseInt : string → JsNumber.
Variable JSON_parse : string → option UserData.
Variable JSON_stringify : UserData → string.

(** X21. User data found in the session storage wins: when the stored
    text is not empty and parses, the page adopts it as the current user
    without a request and without looking at the token, and leaves the
    storage alone.  The page then shows the Actions column exactly when the
    stored department identifier is 1. *)
Theorem stored_user_data_wins
    (res : UserResponse) (st : State) (storage : gmap string string)
    (stored : string) (u : UserData) :
  storage !! "userData" = Some stored →
  stored ≠ "" →
  JSON_parse stored = Some u →
  initializeUserData API_BASE decodePayload parseInt JSON_parse JSON_stringify
                     res st storage
  = (setUserData u st, storage, [])
  ∧ (isSuperAdmin (setUserData u st) = true ↔ departmentId u = 1)
  ∧ ("Actions" ∈ tableHeader (setUserData u st) ↔ departmentId u = 1).
Proof.
  intros Hstored Hne Hparse. unfold initializeUserData. rewrite Hstored. simpl.
  destruct (String.eqb stored "") eqn:E; [by apply String.eqb_eq in E|]. simpl.
  rewrite Hparse. split; [reflexivity|].
  assert (Hadmin : isSuperAdmin (setUserData u st) = true ↔ departmentId u = 1).
  { unfold isSuperAdmin. simpl. apply Z.eqb_eq. }
  split; [exact Hadmin|]. rewrite <- Hadmin. unfold tableHeader.
  destruct (isSuperAdmin (setUserData u st)); split; try done.
  - intros _. apply elem_of_app. right. left.
  - intros Hin. exfalso. revert Hin. apply (bool_decide_unpack _). vm_compute. exact I.
Qed.

(** X22. What a successful [fetchUserData] stores is found again: after
    a fetch answered with code 1 and a user record, the page has that user
    and the storage holds its JSON text, so that, as long as the text is
    not empty and parses back to the record, every later mount of the page
    takes the same user from the storage with no request at all. *)
Theorem fetched_user_survives_reload
    (code : Z) (d : UserData) (st : State) (storage : gmap string string) :
  code = 1 →
  truthyString (storage !! "token") = true →
  truthyNumber (getUserIdFromToken decodePayload parseInt storage) = true →
  JSON_stringify d ≠ "" →
  JSON_parse (JSON_stringify d) = Some d →
  userData (fetchUserData API_BASE decodePayload parseInt JSON_stringify
                          (user_resolved code (Some d)) st storage).1.1 = Some d
  ∧ (fetchUserData API_BASE decodePayload parseInt JSON_stringify
                   (user_resolved code (Some d)) st storage).1.2
    = <["userData" := JSON_stringify d]> storage
  ∧ filter (λ call, isRequest call = true)
           (fetchUserData API_BASE decodePayload parseInt JSON_stringify
                          (user_resolved code (Some d)) st storage).2
    = [axios_get (API_BASE +:+ "/auth/getById/"
                  +:+ match getUserIdFromToken decodePayload parseInt storage with
                      | Some v => printNumber v
                      | None => ""
                      end)]
  ∧ ∀ res st0,
      initializeUserData API_BASE decodePayload parseInt JSON_parse JSON_stringify res st0
        (fetchUserData API_BASE decodePayload parseInt JSON_stringify
                       (user_resolved code (Some d)) st storage).1.2
      = (setUserData d st0,
         <["userData" := JSON_stringify d]> storage,
         []).
Proof.
  intros -> Htoken Hid Hne Hparse. unfold fetchUserData.
  rewrite Htoken, Hid. simpl.
  assert (Hd : {| user_id := user_id d; departmentId := departmentId d;
                  departmentName := departmentName d; user_name := user_name d;
                  user_email := user_email d |} = d) by by destruct d.
  rewrite Hd. split; [reflexivity|]. split; [reflexivity|]. split; [reflexivity|].
  intros res st0. unfold initializeUserData. rewrite lookup_insert_eq. simpl.
  destruct (String.eqb (JSON_stringify d) "") eqn:E; [by apply String.eqb_eq in E|].
  simpl. by rewrite Hparse.
Qed.

(** X23. [fetchUserData] fails closed.  Unless there is a token, a usable
    user identifier in it and an answer with code 1 that carries a user
    record, the page state and the session storage stay exactly as they
    were and one error toast with a non-empty message is shown; without a
    token or without an identifier no request is sent at all. *)
Theorem user_fetch_fails_closed
    (res : UserResponse) (st : State) (storage : gmap string string) :
  acceptedUser res = None
  ∨ truthyString (storage !! "token") = false
  ∨ truthyNumber (getUserIdFromToken decodePayload parseInt storage) = false →
  (fetchUserData API_BASE decodePayload parseInt JSON_stringify res st storage).1
  = (st, storage)
  ∧ ∃ message,
      message ≠ ""
      ∧ (fetchUserData API_BASE decodePayload parseInt JSON_stringify res st storage).2
        = (if truthyString (storage !! "token")
              && truthyNumber (getUserIdFromToken decodePayload parseInt storage)
           then [axios_get (API_BASE +:+ "/auth/getById/"
                            +:+ match getUserIdFromToken decodePayload parseInt storage with
                                | Some v => printNumber v
                                | None => ""
                                end)]
           else [])
          ++ [toast_error message].
Proof.
  intros Hfail. unfold fetchUserData.
  destruct (truthyString (storage !! "token")) eqn:Htoken; simpl;
    [|split; [reflexivity|]; eexists; split; [|reflexivity]; discriminate].
  destruct (truthyNumber (getUserIdFromToken decodePayload parseInt storage)) eqn:Hid;
    simpl; [|split; [reflexivity|]; eexists; split; [|reflexivity]; discriminate].
  destruct Hfail as [Hres|[Hf|Hf]]; [|discriminate|discriminate].
  destruct res as [code data|message]; simpl in *.
  - rewrite Hres. split; [reflexivity|]. eexists. split; [|reflexivity]. discriminate.
  - split; [reflexivity|]. eexists. split; [|reflexivity]. by apply orElse_nonempty.
Qed.

(** X24. The token may be stored with or without the word Bearer in
    front: as long as the bare token is not empty and does not itself
    contain "Bearer ", [getUserIdFromToken] hands the same text to the
    decoder and returns the same identifier in both cases. *)
Theorem token_prefix_is_optional (storage : gmap string string) (t : string) :
  t ≠ "" →
  ¬ contains t "Bearer " →
  replace ("Bearer " +:+ t) "Bearer " "" = t
  ∧ replace t "Bearer " "" = t
  ∧ getUserIdFromToken decodePayload parseInt (<["token" := "Bearer " +:+ t]> storage)
    = getUserIdFromToken decodePayload parseInt (<["token" := t]> storage).
Proof.
  intros Hne Habsent.
  assert (H1 := replace_bearer_prefix t).
  assert (H2 := replace_absent t "Bearer " "" Habsent).
  split; [exact H1|]. split; [exact H2|].
  unfold getUserIdFromToken. rewrite !lookup_insert_eq.
  cbn [default truthyString].
  change (String.eqb ("Bearer " +:+ t) "") with false.
  destruct (String.eqb t "") eqn:E; [by apply String.eqb_eq in E|].
  cbn [negb]. unfold Datatypes.id. by rewrite H1, H2.
Qed.

End CurrentUser.

Lemma stored_user_data_wins_witness :
  ShowCompanyPage.initializeUserData "https://crm.test/api" decodeAsUser3 parseIntNaN
    parseAdmin stringifyAdmin (ShowCompanyPage.user_rejected None) freshPage
    {[ "userData" := "{departmentId:1}" ]}
  = (ShowCompanyPage.setUserData (userOfDepartment 1) freshPage,
     {[ "userData" := "{departmentId:1}" ]}, []).
Proof.
  apply (stored_user_data_wins "https://crm.test/api" decodeAsUser3 parseIntNaN
           parseAdmin stringifyAdmin (ShowCompanyPage.user_rejected None) freshPage
           {[ "userData" := "{departmentId:1}" ]} "{departmentId:1}" (userOfDepartment 1)).
  - reflexivity.
  - discriminate.
  - reflexivity.
Defined.

Lemma fetched_user_survives_reload_witness :
  ShowCompanyPage.initializeUserData "https://crm.test/api" decodeAsUser3 parseIntNaN
    parseAdmin stringifyAdmin (ShowCompanyPage.user_rejected None) freshPage
    (ShowCompanyPage.fetchUserData "https://crm.test/api" decodeAsUser3 parseIntNaN
       stringifyAdmin (ShowCompanyPage.user_resolved 1 (Some (userOfDepartment 1)))
       freshPage {[ "token" := "Bearer a.b.c" ]}).1.2
  = (ShowCompanyPage.setUserData (userOfDepartment 1) freshPage,
     <["userData" := "{departmentId:1}"]> {[ "token" := "Bearer a.b.c" ]},
     []).
Proof.
  apply (fetched_user_survives_reload "https://crm.test/api" decodeAsUser3 parseIntNaN
           parseAdmin stringifyAdmin 1 (userOfDepartment 1) freshPage
           {[ "token" := "Bearer a.b.c" ]}).
  - reflexivity.
  - reflexivity.
  - reflexivity.
  - discriminate.
  - reflexivity.
Defined.

Lemma user_fetch_fails_closed_witness :
  (ShowCompanyPage.fetchUserData "https://crm.test/api" decodeAsUser3 parseIntNaN
     stringifyAdmin (ShowCompanyPage.user_resolved 1 (Some (userOfDepartment 1)))
     freshPage ∅).1
  = (freshPage, ∅).
Proof.
  apply (user_fetch_fails_closed "https://crm.test/api" decodeAsUser3 parseIntNaN
           stringifyAdmin
           (ShowCompanyPage.user_resolved 1 (Some (userOfDepartment 1))) freshPage ∅).
  right. left. reflexivity.
Defined.

Lemma token_prefix_is_optional_witness :
  ShowCompanyPage.getUserIdFromToken decodeAsUser3 parseIntNaN
    (<["token" := "Bearer a.b.c"]> ∅)
  = ShowCompanyPage.getUserIdFromToken decodeAsUser3 parseIntNaN
      (<["token" := "a.b.c"]> ∅).
Proof.
  apply (token_prefix_is_optional decodeAsUser3 parseIntNaN ∅ "a.b.c").
  - discriminate.
  - intros (pre & post & Heq).
    destruct pre as [|c1 [|c2 [|c3 [|c4 [|c5 [|c6 pre]]]]]]; discriminate.
Defined.

(** * The user list page *)

Section UserPage.

Import ShowUserPage.

Variable API_BASE : string.
Variable toLowerCase : string → string.
Variable toUpperCase : string → string.

(** X25. Deleting a user is not tied to the SuperAdmin test: whoever the
    current user is, confirming the dialog sends one DELETE request for the
    selected user.  An answer with code 1 removes exactly the users with
    that identifier, closes the dialog and clears the selection; after any
    other answer the page is exactly as before, dialog still open, and one
    error is shown. *)
Theorem user_delete_is_not_gated (st : State) (res : DeleteResponse) (u : User) :
  selectedUser st = Some u →
  ∃ outcome,
    (deleteUser API_BASE res st).2
    = [axios_delete (API_BASE +:+ "/auth/deleteById/" +:+ pretty (id u)); outcome]
    ∧ if deletedWithCode1 res
      then outcome = toast_success "User deleted successfully!"
           ∧ users (deleteUser API_BASE res st).1 = filter (λ x, id x ≠ id u) (users st)
           ∧ deleteModal (deleteUser API_BASE res st).1 = false
           ∧ selectedUser (deleteUser API_BASE res st).1 = None
      else (deleteUser API_BASE res st).1 = st
           ∧ ∃ message, outcome = toast_error message ∧ message ≠ "".
Proof.
  intros Hsel. unfold deleteUser. rewrite Hsel.
  destruct res as [code message|message]; simpl.
  - destruct (code =? 1); simpl; eexists; (split; [reflexivity|]).
    + repeat (split; [reflexivity|]). reflexivity.
    + split; [reflexivity|]. eexists. split; [reflexivity|]. by apply orElse_nonempty.
  - eexists. split; [reflexivity|]. split; [reflexivity|].
    eexists. split; [reflexivity|]. by apply orElse_nonempty.
Qed.

(** X26. On the user page the SuperAdmin test decides one thing only, the
    Company column: the header has it, and every row has a company cell,
    exactly when the test holds.  The Actions column and the view and
    delete buttons of a row are there for every user, and the "No users
    found" cell spans as many columns as the header has. *)
Theorem user_table_columns (st : State) :
  ("Company" ∈ tableHeader st ↔ isSuperAdmin st = true)
  ∧ "Actions" ∈ tableHeader st
  ∧ (∀ idx u, is_Some (row_company (tableRow toUpperCase st idx u))
              ↔ isSuperAdmin st = true)
  ∧ (∀ idx u, row_actions (tableRow toUpperCase st idx u)
              = [ViewButton (id u); DeleteButton u])
  ∧ match tableBody toLowerCase toUpperCase st with
    | NoUsersFound colSpan => colSpan = Z.of_nat (length (tableHeader st))
    | Rows rows => length rows = length (filteredUsers toLowerCase st)
    end.
Proof.
  unfold tableHeader, tableRow, tableBody.
  destruct (isSuperAdmin st); simpl.
  - split; [split; [done|intros _; apply (bool_decide_unpack _); vm_compute; exact I]|].
    split; [apply (bool_decide_unpack _); vm_compute; exact I|].
    split; [intros idx u; split; [done|by eexists]|]. split; [done|].
    destruct (filteredUsers toLowerCase st) as [|u l]; simpl; [done|].
    by rewrite length_imap.
  - split; [split; [|done]|].
    { intros Hin. exfalso. revert Hin. apply (bool_decide_unpack _). vm_compute. exact I. }
    split; [apply (bool_decide_unpack _); vm_compute; exact I|].
    split; [intros idx u; split; [by intros [? ?]|done]|]. split; [done|].
    destruct (filteredUsers toLowerCase st) as [|u l]; simpl; [done|].
    by rewrite length_imap.
Qed.

(** X27. The user list accepts an answer with code 1 or with code 200:
    then the list becomes the one in the answer (empty when the answer has
    none).  Every other answer leaves the list as it was and shows one
    error.  In all cases the page has stopped loading and nothing else of
    its state has changed. *)
Theorem user_list_accepts_1_or_200 (st : State) (res : ListResponse) :
  users (fetchUsers API_BASE res st).1
  = (if listedWithCode1Or200 res then usersOf res else users st)
  ∧ loading (fetchUsers API_BASE res st).1 = false
  ∧ selectedUser (fetchUsers API_BASE res st).1 = selectedUser st
  ∧ userData (fetchUsers API_BASE res st).1 = userData st
  ∧ ∃ outcome,
      (fetchUsers API_BASE res st).2
      = axios_get (API_BASE +:+ "/auth/get-all") :: outcome
      ∧ if listedWithCode1Or200 res then outcome = []
        else ∃ message, outcome = [toast_error message] ∧ message ≠ "".
Proof.
  unfold fetchUsers. destruct res as [code message data|message]; simpl.
  - destruct ((code =? 1) || (code =? 200)); simpl;
      repeat (split; [reflexivity|]); eexists; (split; [reflexivity|]); [reflexivity|].
    eexists. split; [reflexivity|]. by apply orElse_nonempty.
  - repeat (split; [reflexivity|]). eexists. split; [reflexivity|].
    eexists. split; [reflexivity|]. by apply orElse_nonempty.
Qed.

(** X28. Viewing a user shows what the server returns for it: after an
    answer with code 1 that carries a user, the page (once loaded) shows the
    view dialog of that user over an unchanged table.  The department and
    role lines of the dialog are never empty: a missing or empty name is
    replaced by the identifier and by "N/A". *)
Theorem viewing_shows_server_record
    (st : State) (userId code : Z) (message : option string) (u : User) :
  loading st = false →
  code = 1 →
  render toLowerCase toUpperCase
         (viewUser API_BASE userId (detail_resolved code message (Some u)) st).1
  = Page (tableHeader st) (tableBody toLowerCase toUpperCase st)
         (Some (viewDialogOf st u))
         (if deleteModal st then Some (name u) else None)
  ∧ dialog_title (viewDialogOf st u) = name u
  ∧ dialog_department (viewDialogOf st u) ≠ ""
  ∧ dialog_role (viewDialogOf st u) ≠ ""
  ∧ (departmentName u = None →
     dialog_department (viewDialogOf st u) = "ID: " +:+ pretty (departmentId u))
  ∧ (viewUser API_BASE userId (detail_resolved code message (Some u)) st).2
    = [axios_get (API_BASE +:+ "/auth/getById/" +:+ pretty userId)].
Proof.
  intros Hloaded Hcode. subst code. unfold viewUser, render. simpl. rewrite Hloaded.
  split; [reflexivity|]. split; [reflexivity|].
  split; [by apply orElse_nonempty|]. split; [by apply orElse_nonempty|].
  split; [|reflexivity]. unfold departmentText. by intros ->.
Qed.

End UserPage.

Lemma user_delete_is_not_gated_witness :
  (ShowUserPage.deleteUser "https://crm.test/api"
     (ShowUserPage.delete_resolved 1 None) (userPageOf 2)).2
  = [ShowUserPage.axios_delete "https://crm.test/api/auth/deleteById/3";
     ShowUserPage.toast_success "User deleted successfully!"].
Proof.
  destruct (user_delete_is_not_gated "https://crm.test/api" (userPageOf 2)
              (ShowUserPage.delete_resolved 1 None) asha) as (outcome & Hcalls & Hok);
    [reflexivity|].
  simpl in Hok. destruct Hok as (-> & _). exact Hcalls.
Defined.

Lemma viewing_shows_server_record_witness :
  ShowUserPage.dialog_department (ShowUserPage.viewDialogOf (userPageOf 2) asha) = "ID: 4".
Proof.
  apply (viewing_shows_server_record "https://crm.test/api" (λ s, s) (λ s, s)
           (userPageOf 2) 3 1 None asha); reflexivity.
Defined.
